(** * pdemtools.load: loading ArcticDEM / REMA strips and mosaics

    A shallow embedding of [src/pdemtools/load.py].  Pure string and path
    construction is written as Rocq functions over [string]; the raster
    library (rioxarray), the vector index reader (geopandas) and the
    file system are collected in a [World] record; the loading functions
    run in a small monad that threads the list of I/O events and an
    exception. *)

From Stdlib Require Import ZArith Ascii String List Floats.SpecFloat.
From stdpp Require Import base decidable option list strings pretty gmap.

Local Open Scope string_scope.
Local Open Scope Z_scope.

(** ** Python strings

    Python [str] values are modelled as Rocq strings of 8-bit characters;
    the case mapping is the ASCII one. *)
Module PyStr.

(** [c.lower()] on one character: 'A'..'Z' are moved to 'a'..'z'. *)
Definition lower_ascii (c : ascii) : ascii :=
  let n := nat_of_ascii c in
  if ((65 <=? n)%nat && (n <=? 90)%nat)%bool then ascii_of_nat (n + 32) else c.

(** [s.lower()] *)
Fixpoint lower (s : string) : string :=
  match s with
  | EmptyString => EmptyString
  | String c t => String (lower_ascii c) (lower t)
  end.

(** [s.startswith(p)] *)
Definition startswith (p s : string) : bool := String.prefix p s.

(** [s.endswith(p)] *)
Fixpoint endswith (p s : string) : bool :=
  if String.eqb p s then true
  else match s with
       | EmptyString => false
       | String _ t => endswith p t
       end.

(** [needle in hay] for strings. *)
Fixpoint contains (needle hay : string) : bool :=
  if String.prefix needle hay then true
  else match hay with
       | EmptyString => false
       | String _ t => contains needle t
       end.

(** [s.split(sep)] for a non-empty separator: [go] scans [s] left to
    right, [cur] holds the characters of the current field in reverse
    and [skip] counts the characters of a separator still to be
    consumed. *)
Fixpoint split_go (sep s : string) (cur : string) (skip : nat) : list string :=
  match s with
  | EmptyString => [String.rev cur]
  | String c t =>
      match skip with
      | S k => split_go sep t cur k
      | O =>
          if String.prefix sep s
          then String.rev cur :: split_go sep t EmptyString (String.length sep - 1)
          else split_go sep t (String c cur) O
      end
  end.

Definition split (sep s : string) : list string := split_go sep s EmptyString O.

(** [s.replace(old, new)] for a non-empty [old]: every non-overlapping
    occurrence, left to right. *)
Fixpoint replace_go (old new s : string) (skip : nat) : string :=
  match s with
  | EmptyString => EmptyString
  | String c t =>
      match skip with
      | S k => replace_go old new t k
      | O =>
          if String.prefix old s
          then new +:+ replace_go old new t (String.length old - 1)
          else String c (replace_go old new t O)
      end
  end.

Definition replace (old new s : string) : string := replace_go old new s O.

(** [repr] of a list of plain strings, as an f-string prints it:
    [['2m', '10m', '32m']]. *)
Fixpoint repr_items (l : list string) : string :=
  match l with
  | [] => ""
  | [x] => "'" +:+ x +:+ "'"
  | x :: t => "'" +:+ x +:+ "', " +:+ repr_items t
  end.

Definition repr_list (l : list string) : string := "[" +:+ repr_items l +:+ "]".

(** [x in l] for a list of strings. *)
Definition In_list (x : string) (l : list string) : bool := bool_decide (x ∈ l).

End PyStr.

(** ** [os.path.join] (POSIX flavour)

    A component that starts with the separator restarts the path; a
    separator is inserted unless the path so far is empty or already ends
    with one. *)
Module OsPath.

Definition sep : string := "/".

Definition join_step (path b : string) : string :=
  if PyStr.startswith sep b then b
  else if (String.eqb path "" || PyStr.endswith sep path)%bool then path +:+ b
  else path +:+ sep +:+ b.

Definition join (a : string) (p : list string) : string :=
  fold_left join_step p a.

End OsPath.

(** ** Module constants *)

(** [VERSIONS]: a dict, kept as an association list in insertion order. *)
Definition VERSIONS : list (string * list string) :=
  [("arcticdem", ["v3.0"; "v4.1"]); ("rema", ["v2.0"])].

Definition ARCTICDEM_V3_INDEX_FNAME : string := "ArcticDEM_Mosaic_Index_v3_gpkg.gpkg".
Definition ARCTICDEM_V3_INDEX_2M_LAYER_NAME : string := "ArcticDEM_Mosaic_Index_v3_2m".
Definition ARCTICDEM_V4_INDEX_FNAME : string := "ArcticDEM_Mosaic_Index_v4_1_gpkg.gpkg".
Definition ARCTICDEM_V4_INDEX_2M_LAYER_NAME : string := "ArcticDEM_Mosaic_Index_v4_1_2m".
Definition REMA_V2_INDEX_FNAME : string := "REMA_Mosaic_Index_v2_gpkg.gpkg".
Definition REMA_V2_INDEX_2M_LAYER_NAME : string := "REMA_Mosaic_Index_v2_2m".

Definition PREFIX : string := "https://pgc-opendata-dems.s3.us-west-2.amazonaws.com".

Definition VALID_MOSAIC_RES : list string := ["2m"; "10m"; "32m"].

(** [VERSIONS.keys()] and [VERSIONS[k]]. *)
Definition dict_keys {V} (d : list (string * V)) : list string := map fst d.

Fixpoint dict_get {V} (d : list (string * V)) (k : string) : option V :=
  match d with
  | [] => None
  | (k', v) :: t => if String.eqb k k' then Some v else dict_get t k
  end.

(** ** Exceptions and results *)

Inductive exn : Type :=
  | ValueError (msg : string)
  | KeyError (key : string)
  | IndexError (msg : string)
  | TypeError (msg : string)
  | AttributeError (msg : string)
  | LibraryError (msg : string).

Inductive result (A : Type) : Type :=
  | Ok (a : A)
  | Raise (e : exn).
Arguments Ok {A} a.
Arguments Raise {A} e.

(** ** Data model *)

(** A cell holds an IEEE-754 value; [S754_nan] is the missing-data
    marker. *)
Abbreviation cell := spec_float.

(** The literal [-9999.0] as a binary64 value. *)
Definition NODATA : cell := S754_finite true 5497008383066112 (-39).
Definition ZERO : cell := S754_zero false.
Definition NAN : cell := S754_nan.

(** An [xarray.DataArray]: the named dimensions with their sizes, and the
    cells in row-major order. *)
Record raster : Type := {
  dims : list (string * nat);
  data : list cell
}.

(** [(xmin, ymin, xmax, ymax)] *)
Record Bounds : Type := {
  xmin : Z; ymin : Z; xmax : Z; ymax : Z
}.

(** A shapely polygon, by its exterior ring. *)
Definition Polygon : Type := list (Z * Z).

(** The [bounds] argument: a tuple or a polygon. *)
Inductive bounds_arg : Type :=
  | BoundsTuple (b : Bounds)
  | BoundsPolygon (p : Polygon).

(** The [resolution] argument of [mosaic]: a [str] or an [int]. *)
Inductive resolution_arg : Type :=
  | ResStr (s : string)
  | ResInt (n : Z).

(** A record of the mosaic index, as the code reads it. *)
Record TileRow : Type := {
  tile : string;
  supertile : string
}.

(** The [row] argument of [preview] and [from_search]: a GeoDataFrame
    (its [s3url] column) or a single record (its [s3url] field). *)
Inductive search_row : Type :=
  | SearchFrame (s3urls : list string)
  | SearchRecord (s3url : string).

(** ** The outside world

    Everything the module obtains from its collaborators: rioxarray
    ([open_rasterio], [clip_box], [rio_bounds], [merge_arrays]), the
    package's own [_utils.clip], geopandas ([read_file], which returns the
    records of a layer whose footprint meets the bounding box), shapely
    ([polygon_bounds]), importlib ([resources_files]), xarray's alignment
    of two labelled arrays ([align]), and what belongs to the interpreter
    run: the address it prints for the [VERSIONS] dict, the name it
    prints for the [clip_box] method in an error, and the order in which
    it iterates over a set. Each collaborator may fail with an exception
    of its own.

    [align a b] is the inner join of [a] and [b] on their coordinates:
    the dimensions of the common grid and, for each of its cells in
    row-major order, the position of that cell in the data of [a] and in
    the data of [b]; a cell of the common grid is a cell of both
    ([align_spec]).

    [list_of_set l] is [list(set(l))]: the members of [l] without
    repetition, in an order that is the interpreter's own. *)
Record World : Type := {
  open_rasterio : string → result raster;
  clip_box : raster → Bounds → result raster;
  rio_bounds : raster → Bounds;
  merge_arrays : list raster → result raster;
  clip : raster → Bounds → result raster;
  read_file : string → string → option Bounds → result (list TileRow);
  polygon_bounds : Polygon → Bounds;
  resources_files : string → string;
  align : raster → raster → list (string * nat) * list (nat * nat);
  dict_addr : string;
  clip_box_repr : string;
  list_of_set : list string → list string;
  align_spec :
    ∀ a b ij, ij ∈ snd (align a b) →
              (fst ij < length (data a))%nat ∧ (snd ij < length (data b))%nat;
  list_of_set_spec :
    ∀ l, NoDup (list_of_set l) ∧ ∀ x, x ∈ list_of_set l ↔ x ∈ l
}.

(** ** I/O monad: a log of the I/O performed so far, and a result or an
    exception. *)
Inductive event : Type :=
  | OpenRaster (path : string)
  | ReadIndex (path layer : string).

Definition IO (A : Type) : Type := list event → result A * list event.

Definition io_ret {A} (a : A) : IO A := λ log, (Ok a, log).
Definition io_raise {A} (e : exn) : IO A := λ log, (Raise e, log).
Definition io_bind {A B} (m : IO A) (k : A → IO B) : IO B :=
  λ log, match m log with
         | (Ok a, log') => k a log'
         | (Raise e, log') => (Raise e, log')
         end.
Definition io_lift {A} (r : result A) : IO A := λ log, (r, log).
Definition io_emit (e : event) : IO unit := λ log, (Ok tt, (log ++ [e])%list).

Notation "x <- m ;; k" := (io_bind m (λ x, k))
  (at level 100, m at next level, right associativity).
Notation "m ;;; k" := (io_bind m (λ _, k))
  (at level 100, right associativity).

(** Run a computation from an empty log. *)
Definition run {A} (m : IO A) : result A * list event := m [].

(** ** Array operations of xarray used by the module *)

(** [r > x]: element-wise comparison. *)
Definition raster_gt (r : raster) (x : cell) : list bool :=
  map (λ v, SFltb x v) (data r).

(** [r.where(cond)] for a condition computed cell by cell from [r]
    itself (as in [r.where(r > x)]): the condition lies on the grid of
    [r], and the cells where it is false become NaN. *)
Definition where_ (r : raster) (cond : list bool) : raster :=
  {| dims := dims r;
     data := zip_with (λ (v : cell) (b : bool), if b then v else NAN) (data r) cond |}.

(** [r.squeeze(drop=True)]: every dimension of size 1 is removed. *)
Definition squeeze (r : raster) : raster :=
  {| dims := filter (λ d, snd d ≠ 1%nat) (dims r); data := data r |}.

(** The cell of [dem.where(mask == 0)] that lies at position [i] of
    [dem] and at position [j] of [mask]. *)
Definition mask_cell (dem mask : raster) (ij : nat * nat) : cell :=
  match data dem !! fst ij, data mask !! snd ij with
  | Some x, Some m => if SFeqb m ZERO then x else NAN
  | _, _ => NAN
  end.

(** [dem.where(mask == 0)] for a mask that is an array of its own:
    xarray aligns the two on their coordinates (inner join), and the
    result lies on the common grid. *)
Definition where_mask (w : World) (dem mask : raster) : raster :=
  let al := align w dem mask in
  {| dims := fst al; data := map (mask_cell dem mask) (snd al) |}.

Section Load.

Variable w : World.

(** [rxr.open_rasterio(path)] *)
Definition open_raster (path : string) : IO raster :=
  io_emit (OpenRaster path) ;;; io_lift (open_rasterio w path).

(** [if type(bounds) == Polygon: bounds = bounds.bounds] *)
Definition sanitise_bounds (bounds : option bounds_arg) : option Bounds :=
  match bounds with
  | None => None
  | Some (BoundsTuple b) => Some b
  | Some (BoundsPolygon p) => Some (polygon_bounds w p)
  end.

Definition from_fpath (dem_fpath : string) (bounds : option bounds_arg)
    (bitmask_fpath : option string) : IO raster :=
  dem <- open_raster dem_fpath ;;
  let bounds := sanitise_bounds bounds in
  st <- match bounds with
        | Some b => dem' <- io_lift (clip w dem b) ;; io_ret (dem', Some b)
        | None => io_ret (dem, Some (rio_bounds w dem))
        end ;;
  let dem := fst st in
  let bounds := snd st in
  let dem := where_ dem (raster_gt dem NODATA) in
  dem <- match bitmask_fpath with
         | Some bitmask_fpath =>
             mask <- open_raster bitmask_fpath ;;
             mask <- match bounds with
                     | Some b => io_lift (clip w mask b)
                     | None => io_ret mask
                     end ;;
             io_ret (where_mask w dem mask)
         | None => io_ret dem
         end ;;
  io_ret (squeeze dem).

(** The [try: row.s3url.values[0] except: row.s3url] block, followed by
    [s3url.split("/external/")[1]]. An empty frame leaves the column
    itself in [s3url], which has no [split]. *)
Definition row_json_url (row : search_row) : result string :=
  match (match row with
         | SearchFrame (u :: _) => Ok u
         | SearchFrame [] => Raise (AttributeError "'Series' object has no attribute 'split'")
         | SearchRecord u => Ok u
         end) with
  | Raise e => Raise e
  | Ok s3url =>
      match PyStr.split "/external/" s3url with
      | _ :: x :: _ => Ok ("http://" +:+ x)
      | _ => Raise (IndexError "list index out of range")
      end
  end.

Definition preview (row : search_row) (bounds : option bounds_arg) : IO raster :=
  json_url <- io_lift (row_json_url row) ;;
  let hillshade_10m_url := PyStr.replace ".json" "_dem_10m_shade_masked.tif" json_url in
  preview <- from_fpath hillshade_10m_url bounds None ;;
  io_ret (where_ preview (raster_gt preview ZERO)).

Definition from_search (row : search_row) (bounds : option bounds_arg)
    (bitmask : bool) : IO raster :=
  json_url <- io_lift (row_json_url row) ;;
  let dem_url := PyStr.replace ".json" "_dem.tif" json_url in
  let bitmask_url :=
    if bitmask then Some (PyStr.replace ".json" "_bitmask.tif" json_url) else None in
  from_fpath dem_url bounds bitmask_url.

(** [from_id] returns a path string when [preview] is set and a raster
    otherwise. *)
Inductive from_id_result : Type :=
  | PreviewPath (fpath : string)
  | Strip (dem : raster).

Definition BROWSER_PREFIX : string :=
  "https://polargeospatialcenter.github.io/stac-browser/#/external/pgc-opendata-dems.s3.us-west-2.amazonaws.com".

Definition from_id (dataset geocell dem_id : string) (bounds : option bounds_arg)
    (bitmask : bool) (bucket version : string) (preview : bool) : IO from_id_result :=
  let dataset := PyStr.lower dataset in
  let geocell := PyStr.lower geocell in
  if preview then
    io_ret (PreviewPath
      (OsPath.join BROWSER_PREFIX
         [dataset; "strips"; version; "2m"; geocell; dem_id +:+ ".json"]))
  else
    let dem_fpath :=
      OsPath.join bucket [dataset; "strips"; version; "2m"; geocell; dem_id +:+ "_dem.tif"] in
    let bitmask_fpath :=
      if bitmask
      then Some (OsPath.join bucket
                   [dataset; "strips"; version; "2m"; geocell; dem_id +:+ "_bitmask.tif"])
      else None in
    dem <- from_fpath dem_fpath bounds bitmask_fpath ;;
    io_ret (Strip dem).

(** *** [_get_index_fpath] *)
Definition CONFIG_ERROR_MSG : string :=
  "Cannot retrive internal index filepath for specified dataset and version.".

Definition _get_index_fpath (dataset version : string) : result string :=
  match
    (if (String.eqb dataset "arcticdem" && String.eqb version "v3.0")%bool
     then Ok ARCTICDEM_V3_INDEX_FNAME
     else if (String.eqb dataset "arcticdem" && String.eqb version "v4.1")%bool
     then Ok ARCTICDEM_V4_INDEX_FNAME
     else if (String.eqb dataset "rema" && String.eqb version "v2.0")%bool
     then Ok REMA_V2_INDEX_FNAME
     else Raise (ValueError CONFIG_ERROR_MSG))
  with
  | Ok fname => Ok (OsPath.join (resources_files w "pdemtools.mosaic_index") [fname])
  | Raise e => Raise e
  end.

(** *** [_aws_link] *)
Definition aws_suffix (dataset version resolution : string) : string :=
  if (String.eqb dataset "arcticdem" && String.eqb version "v3.0")%bool
  then "_" +:+ resolution +:+ "_" +:+ version +:+ "_reg_dem.tif"
  else "_" +:+ resolution +:+ "_" +:+ version +:+ "_dem.tif".

Definition _aws_link (row : TileRow) (dataset version resolution prefix : string)
    : result string :=
  let suffix := aws_suffix dataset version resolution in
  match
    (if String.eqb resolution "2m" then Ok (tile row +:+ suffix)
     else if PyStr.In_list resolution ["10m"; "32m"] then Ok (supertile row +:+ suffix)
     else Raise (ValueError "Input `resolution` must be one of ['2m', '10m', '32m']"))
  with
  | Ok fname =>
      Ok (OsPath.join prefix [dataset; "mosaics"; version; resolution; supertile row; fname])
  | Raise e => Raise e
  end.

(** *** [mosaic] *)

(** What an f-string prints for [VERSIONS.keys] (the method itself, not
    its result). *)
Definition repr_keys_method : string :=
  "<built-in method keys of dict object at 0x" +:+ dict_addr w +:+ ">".

Definition dataset_error_msg (dataset : string) : string :=
  "Dataset must be one of " +:+ repr_keys_method +:+ ". Currently `" +:+ dataset +:+ "`.".

Definition version_error_msg (dataset : string) (versions : list string)
    (version : string) : string :=
  "Version of " +:+ dataset +:+ " must be one of " +:+ PyStr.repr_list versions
  +:+ ". Currently `" +:+ version +:+ "`".

Definition resolution_error_msg (resolution : string) : string :=
  "Resolution must be one of " +:+ PyStr.repr_list VALID_MOSAIC_RES
  +:+ ". Currently `" +:+ resolution +:+ "`".

Definition NO_TILES_MSG : string :=
  "No {dataset} mosaic tiles found to intersect with bounds {aoi}".

Definition getitem (d : list (string * list string)) (k : string)
    : result (list string) :=
  match dict_get d k with
  | Some v => Ok v
  | None => Raise (KeyError k)
  end.

(** Lines 263-275: the dataset is lower-cased and checked, the version
    is defaulted to the last one listed or checked. Returns the pair
    [(dataset, version)] the rest of the function works with. *)
Definition check_dataset_version (dataset : string) (version : option string)
    : result (string * string) :=
  let dataset := PyStr.lower dataset in
  if negb (PyStr.In_list dataset (dict_keys VERSIONS))
  then Raise (ValueError (dataset_error_msg dataset))
  else
    match getitem VERSIONS dataset with
    | Raise e => Raise e
    | Ok versions =>
        match version with
        | None =>
            match last versions with
            | Some v => Ok (dataset, v)
            | None => Raise (IndexError "list index out of range")
            end
        | Some version =>
            if negb (PyStr.In_list version versions)
            then Raise (ValueError (version_error_msg dataset versions version))
            else Ok (dataset, version)
        end
    end.

(** Lines 277-285. *)
Definition check_resolution (resolution : resolution_arg) : result string :=
  let resolution :=
    match resolution with
    | ResInt n => pretty n +:+ "m"
    | ResStr s => s
    end in
  if negb (PyStr.In_list resolution VALID_MOSAIC_RES)
  then Raise (ValueError (resolution_error_msg resolution))
  else Ok resolution.

(** Lines 291-301. *)
Definition index_layer (dataset version : string) : result string :=
  if (String.eqb dataset "arcticdem" && String.eqb version "v3.0")%bool
  then Ok ARCTICDEM_V3_INDEX_2M_LAYER_NAME
  else if (String.eqb dataset "arcticdem" && String.eqb version "v4.1")%bool
  then Ok ARCTICDEM_V4_INDEX_2M_LAYER_NAME
  else if (String.eqb dataset "rema" && String.eqb version "v2.0")%bool
  then Ok REMA_V2_INDEX_2M_LAYER_NAME
  else Raise (ValueError CONFIG_ERROR_MSG).

(** Lines 314-317: one path per record. *)
Fixpoint tile_fpaths (tiles : list TileRow) (dataset version resolution : string)
    : result (list string) :=
  match tiles with
  | [] => Ok []
  | row :: rest =>
      match _aws_link row dataset version resolution PREFIX with
      | Raise e => Raise e
      | Ok fpath =>
          match tile_fpaths rest dataset version resolution with
          | Raise e => Raise e
          | Ok fpaths => Ok (fpath :: fpaths)
          end
      end
  end.

(** [list(set(fpaths))]: the order of the result is the set's own. *)
Definition unique_fpaths (fpaths : list string) : list string :=
  list_of_set w fpaths.

(** What the interpreter says when [None] is unpacked as the arguments
    of [clip_box]: the callee as it prints it, then a fixed text. *)
Definition unpack_none_msg : string :=
  clip_box_repr w +:+ " argument after * must be an iterable, not NoneType".

(** [rxr.open_rasterio(fpath).rio.clip_box( *bounds)]: the raster is
    opened before the arguments are unpacked. *)
Definition open_clip_box (fpath : string) (bounds : option Bounds) : IO raster :=
  dem <- open_raster fpath ;;
  match bounds with
  | Some b => io_lift (clip_box w dem b)
  | None => io_raise (TypeError unpack_none_msg)
  end.

(** Lines 323-326. *)
Fixpoint load_dems (fpaths : list string) (bounds : option Bounds) : IO (list raster) :=
  match fpaths with
  | [] => io_ret []
  | fpath :: rest =>
      dem <- open_clip_box fpath bounds ;;
      dems <- load_dems rest bounds ;;
      io_ret (dem :: dems)
  end.

(** Lines 308-340: from the records read from the index to the raster
    returned. *)
Definition mosaic_tiles (dataset version resolution : string) (bounds : option Bounds)
    (tiles : list TileRow) : IO raster :=
  if (length tiles <? 1)%nat then io_raise (ValueError NO_TILES_MSG)
  else
    fpaths <- io_lift (tile_fpaths tiles dataset version resolution) ;;
    let fpaths := unique_fpaths fpaths in
    dems <- load_dems fpaths bounds ;;
    (if (length fpaths =? 1)%nat
     then match fpaths with
          | fpath0 :: _ => open_clip_box fpath0 bounds ;;; io_ret tt
          | [] => io_raise (IndexError "list index out of range")
          end
     else io_ret tt) ;;;
    dem <- (if (1 <? length dems)%nat then io_lift (merge_arrays w dems)
            else match dems with
                 | dem0 :: _ => io_ret dem0
                 | [] => io_raise (IndexError "list index out of range")
                 end) ;;
    io_ret (where_ dem (raster_gt dem NODATA)).

Definition mosaic (dataset : string) (resolution : resolution_arg)
    (bounds : option bounds_arg) (version : option string) : IO raster :=
  dv <- io_lift (check_dataset_version dataset version) ;;
  let dataset := fst dv in
  let version := snd dv in
  resolution <- io_lift (check_resolution resolution) ;;
  let bounds := sanitise_bounds bounds in
  layer <- io_lift (index_layer dataset version) ;;
  index_fpath <- io_lift (_get_index_fpath dataset version) ;;
  io_emit (ReadIndex index_fpath layer) ;;;
  tiles <- io_lift (read_file w index_fpath layer bounds) ;;
  mosaic_tiles dataset version resolution bounds tiles.

End Load.

(** * Specification predicates *)

(** ** The mosaic tile path, as the specification words it *)
Module Spec.

(** A component that [os.path.join] treats as one plain segment: not
    empty, and with no separator at either end. *)
Definition plain_component (s : string) : Prop :=
  s ≠ "" ∧ PyStr.startswith "/" s = false ∧ PyStr.endswith "/" s = false.

(** The tile code at [2m], the supertile code at [10m] and [32m]. *)
Definition identifier (row : TileRow) (resolution : string) : string :=
  if String.eqb resolution "2m" then tile row else supertile row.

(** The registration marker: present for ArcticDEM [v3.0] only. *)
Definition reg_marker (dataset version : string) : string :=
  if (String.eqb dataset "arcticdem" && String.eqb version "v3.0")%bool
  then "_reg" else "".

Definition suffix (dataset version resolution : string) : string :=
  "_" +:+ resolution +:+ "_" +:+ version +:+ reg_marker dataset version +:+ "_dem.tif".

(** [{root}/{dataset}/mosaics/{version}/{resolution}/{supertile}/{identifier}{suffix}] *)
Definition mosaic_tile_path (root dataset version resolution : string) (row : TileRow)
    : string :=
  root +:+ "/" +:+ dataset +:+ "/" +:+ "mosaics" +:+ "/" +:+ version +:+ "/"
  +:+ resolution +:+ "/" +:+ supertile row +:+ "/"
  +:+ identifier row resolution +:+ suffix dataset version resolution.

End Spec.

(** ** Validation *)

(** The pairs that pass lines 263-275. *)
Definition supported (d v : string) : Prop :=
  (d = "arcticdem" ∧ (v = "v3.0" ∨ v = "v4.1")) ∨ (d = "rema" ∧ v = "v2.0").

(** The errors raised by the checks of dataset, version and resolution. *)
Definition validation_error (w : World) (e : exn) : Prop :=
  (∃ dataset, e = ValueError (dataset_error_msg w dataset))
  ∨ (∃ dataset versions version,
        e = ValueError (version_error_msg dataset versions version))
  ∨ (∃ resolution, e = ValueError (resolution_error_msg resolution)).

(** ** Rasters *)

(** [out] holds the cells of [src] at the positions [sel], with the
    nodata value filtered: [out] has one cell for each position of
    [sel], in that order; every position of [sel] is a position of
    [src]; no cell of [out] equals [-9999.0]; and the cell of [out] for
    position [i] is the cell of [src] there or NaN, and it is NaN when
    [src] holds [-9999.0] there. *)
Definition filtered_from (src : raster) (sel : list nat) (out : raster) : Prop :=
  length (data out) = length sel
  ∧ ∀ (k : nat) (v : cell),
      data out !! k = Some v →
      SFeqb v NODATA = false
      ∧ ∃ i x, sel !! k = Some i
               ∧ data src !! i = Some x
               ∧ (v = x ∨ v = NAN)
               ∧ (SFeqb x NODATA = true → v = NAN).

(** Every position of a raster, in order. *)
Definition all_positions (r : raster) : list nat := seq 0 (length (data r)).

Section Sources.

Variable w : World.

(** The raster behind a strip: the file at [fpath] as opened, clipped to
    the bounds when there are any. *)
Definition strip_source (fpath : string) (bounds : option Bounds) (c : raster) : Prop :=
  ∃ dem0, open_rasterio w fpath = Ok dem0
          ∧ match bounds with
            | Some b => clip w dem0 b = Ok c
            | None => c = dem0
            end.

(** A mosaic tile as loaded: the file at [fpath] as opened, cut to the
    bounds by [clip_box]. *)
Definition tile_loaded (bounds : option Bounds) (fpath : string) (dem : raster) : Prop :=
  ∃ dem0 b, bounds = Some b
            ∧ open_rasterio w fpath = Ok dem0
            ∧ clip_box w dem0 b = Ok dem.

(** The raster [mosaic] filters at the end: the tiles merged when there
    are several, the tile itself when there is one. *)
Definition assembled (bounds : option Bounds) (fpaths : list string) (dem : raster) : Prop :=
  ∃ dems, Forall2 (tile_loaded bounds) fpaths dems
          ∧ (((1 < length dems)%nat ∧ merge_arrays w dems = Ok dem) ∨ dems = [dem]).

(** The second opening of a lone path (lines 328-329). *)
Definition reopened (fpaths : list string) : list event :=
  match fpaths with
  | [fpath] => [OpenRaster fpath]
  | _ => []
  end.

End Sources.

(** ** Strip loading, in detail *)

(** The bounds the bitmask is clipped to: the bounds given, or the
    extent of the DEM when none were given (line 70). *)
Definition effective_bounds (w : World) (bounds : option Bounds) (dem : raster) : Bounds :=
  match bounds with
  | Some b => b
  | None => rio_bounds w dem
  end.

(** The events of a strip load: the DEM, then the bitmask if any. *)
Definition strip_events (dem_fpath : string) (bitmask_fpath : option string) : list event :=
  OpenRaster dem_fpath ::
  match bitmask_fpath with
  | Some m => [OpenRaster m]
  | None => []
  end.

(** The raster [from_fpath] computes from the clipped DEM [c] and the
    clipped bitmask, if any. *)
Definition strip_result (w : World) (c : raster) (mask : option raster) : raster :=
  let dem := where_ c (raster_gt c NODATA) in
  squeeze match mask with
          | Some m => where_mask w dem m
          | None => dem
          end.

(** The positions of the clipped DEM [c] that the result holds: all of
    them without a bitmask, those of the grid it shares with the bitmask
    otherwise. *)
Definition strip_positions (w : World) (c : raster) (mask : option raster) : list nat :=
  match mask with
  | None => all_positions c
  | Some m => map fst (snd (align w (where_ c (raster_gt c NODATA)) m))
  end.

(** The clipped DEM and the clipped bitmask behind a call of
    [from_fpath]. *)
Definition strip_sources (w : World) (dem_fpath : string) (bounds : option Bounds)
    (bitmask_fpath : option string) (c : raster) (mask : option raster) : Prop :=
  strip_source w dem_fpath bounds c
  ∧ match bitmask_fpath, mask with
    | Some m, Some mk => strip_source w m (Some (effective_bounds w bounds c)) mk
    | None, None => True
    | _, _ => False
    end.

(** ** Occurrences of a separator *)

(** No occurrence of [sep] starts inside [pre] when [pre] is followed by
    [rest]: in [pre +:+ sep +:+ ...] the first occurrence of [sep] is the
    one written. *)
Fixpoint no_match_within (sep pre rest : string) : bool :=
  match pre with
  | EmptyString => true
  | String c p => negb (String.prefix sep (pre +:+ rest)) && no_match_within sep p rest
  end.

(** ** Errors of the collaborators of [mosaic] *)


(** ** Index records *)

(** A record whose codes are path segments: a supertile code that is not
    empty and holds no separator, a tile code that does not start with
    one. *)
Definition segment_codes (row : TileRow) : Prop :=
  supertile row ≠ ""
  ∧ PyStr.contains "/" (supertile row) = false
  ∧ PyStr.startswith "/" (tile row) = false.

(** ** A small world for concrete runs

    An index of three 2 m tiles of REMA [v2.0] with rectangular
    footprints; the first two belong to supertile [40_09], the third to
    [41_09]. Every mosaic raster has one band and two by two cells, one
    of which holds the nodata value. *)
Module TestWorld.

Definition footprints : list (TileRow * Bounds) :=
  [ ({| tile := "40_09_1_1"; supertile := "40_09" |},
     {| xmin := 0; ymin := 0; xmax := 50; ymax := 50 |});
    ({| tile := "40_09_2_1"; supertile := "40_09" |},
     {| xmin := 50; ymin := 0; xmax := 100; ymax := 50 |});
    ({| tile := "41_09_1_1"; supertile := "41_09" |},
     {| xmin := 100; ymin := 0; xmax := 150; ymax := 50 |}) ].

Definition intersects (a b : Bounds) : bool :=
  ((xmin a <=? xmax b) && (xmin b <=? xmax a)
   && (ymin a <=? ymax b) && (ymin b <=? ymax a))%bool.

Definition index_dir : string := "/site-packages/pdemtools/mosaic_index".

Definition read_index (path layer : string) (bbox : option Bounds)
    : result (list TileRow) :=
  if (String.eqb path (index_dir +:+ "/" +:+ REMA_V2_INDEX_FNAME)
      && String.eqb layer REMA_V2_INDEX_2M_LAYER_NAME)%bool
  then Ok (map fst (List.filter (λ fb, match bbox with
                                       | Some b => intersects (snd fb) b
                                       | None => true
                                       end) footprints))
  else Raise (LibraryError "no such index").

(** 1234.5 and 7.25 as binary64 values. *)
Definition v1 : cell := S754_finite false 5429388417957888 (-42).
Definition v2 : cell := S754_finite false 8162774324609024 (-50).

Definition tile_raster : raster :=
  {| dims := [("band", 1%nat); ("y", 2%nat); ("x", 2%nat)];
     data := [v1; NODATA; v2; v1] |}.

Definition bitmask_raster : raster :=
  {| dims := [("band", 1%nat); ("y", 2%nat); ("x", 2%nat)];
     data := [ZERO; ZERO; ZERO; v2] |}.

Definition open_file (path : string) : result raster :=
  if PyStr.endswith "_bitmask.tif" path then Ok bitmask_raster
  else if PyStr.endswith ".tif" path then Ok tile_raster
  else Raise (LibraryError "not recognized as a supported file format").

Definition envelope (p : Polygon) : Bounds :=
  match p with
  | [] => {| xmin := 0; ymin := 0; xmax := 0; ymax := 0 |}
  | (x, y) :: t =>
      fold_left (λ b q, {| xmin := Z.min (xmin b) (fst q); ymin := Z.min (ymin b) (snd q);
                           xmax := Z.max (xmax b) (fst q); ymax := Z.max (ymax b) (snd q) |})
                t {| xmin := x; ymin := y; xmax := x; ymax := y |}
  end.

(** Single-band rasters of equal width stacked along [y]; enough for
    runs that only look at dimensions and at the I/O log. *)
Definition merge (dems : list raster) : result raster :=
  match dems with
  | [] => Raise (LibraryError "no rasters to merge")
  | d :: _ =>
      Ok {| dims := match dims d with
                    | band :: (y, n) :: rest => band :: (y, (n * length dems)%nat) :: rest
                    | l => l
                    end;
            data := concat (map data dems) |}
  end.

(** Every raster of this world lies on the same grid: two rasters are
    aligned cell by cell. *)
Definition align_same_grid (a b : raster) : list (string * nat) * list (nat * nat) :=
  (dims a, map (λ i, (i, i)) (seq 0 (Nat.min (length (data a)) (length (data b))))).

Definition align_same_grid_spec (a b : raster) (ij : nat * nat) :
  ij ∈ snd (align_same_grid a b) →
  (fst ij < length (data a))%nat ∧ (snd ij < length (data b))%nat.
Proof.
  unfold align_same_grid. cbn [snd]. change (map ?f ?l) with (f <$> l).
  rewrite list_elem_of_fmap. intros (i & -> & Hi).
  apply elem_of_seq in Hi. cbn [fst snd]. lia.
Qed.

(** The members of a list in the order of a finite set of strings. *)
Definition set_elements (l : list string) : list string :=
  elements (list_to_set l : gset string).

Definition world : World :=
  {| open_rasterio := open_file;
     clip_box := λ r _, Ok r;
     rio_bounds := λ _, {| xmin := 0; ymin := 0; xmax := 2; ymax := 2 |};
     merge_arrays := merge;
     clip := λ r _, Ok r;
     read_file := read_index;
     polygon_bounds := envelope;
     resources_files := λ _, index_dir;
     align := align_same_grid;
     dict_addr := "7f3c2a1be4c0";
     clip_box_repr := "rioxarray.raster_array.RasterArray.clip_box()";
     list_of_set := set_elements;
     align_spec := align_same_grid_spec;
     list_of_set_spec := λ l,
       conj (NoDup_elements (list_to_set l : gset string))
            (λ x, iff_trans (elem_of_elements (list_to_set l : gset string) x)
                            (elem_of_list_to_set x l)) |}.

Definition row_40_09_1_1 : TileRow := {| tile := "40_09_1_1"; supertile := "40_09" |}.

(** Bounds over the first two tiles only. *)
Definition aoi : bounds_arg :=
  BoundsTuple {| xmin := 10; ymin := 10; xmax := 60; ymax := 40 |}.

(** Bounds far from every footprint. *)
Definition far_away : bounds_arg :=
  BoundsTuple {| xmin := 9000; ymin := 9000; xmax := 9100; ymax := 9100 |}.

(** The index file of REMA [v2.0] and the 10 m raster of supertile
    [40_09] in this world. *)
Definition rema_index_fpath : string :=
  "/site-packages/pdemtools/mosaic_index/REMA_Mosaic_Index_v2_gpkg.gpkg".
Definition supertile_10m_fpath : string :=
  "https://pgc-opendata-dems.s3.us-west-2.amazonaws.com/rema/mosaics/v2.0/10m/40_09/40_09_10m_v2.0_dem.tif".

End TestWorld.

(** * Properties *)

(** ** Strings and paths *)
Section StringFacts.

Lemma lower_ascii_idemp (c : ascii) :
  PyStr.lower_ascii (PyStr.lower_ascii c) = PyStr.lower_ascii c.
Proof. destruct c as [[] [] [] [] [] [] [] []]; reflexivity. Qed.

Lemma lower_idemp (s : string) : PyStr.lower (PyStr.lower s) = PyStr.lower s.
Proof.
  induction s as [|c t IH]; simpl; [reflexivity|].
  now rewrite lower_ascii_idemp, IH.
Qed.

Lemma append_cons (x : ascii) (a b : string) : String x a +:+ b = String x (a +:+ b).
Proof. reflexivity. Qed.

Lemma append_nil_r (s : string) : s +:+ "" = s.
Proof.
  induction s as [|c t IH]; [reflexivity|]. now rewrite append_cons, IH.
Qed.

Lemma append_assoc (a b c : string) : (a +:+ b) +:+ c = a +:+ (b +:+ c).
Proof.
  induction a as [|x a IH]; [reflexivity|]. now rewrite !append_cons, IH.
Qed.

Lemma append_nonempty_l (a b : string) : a ≠ "" → a +:+ b ≠ "".
Proof. destruct a; [congruence|]. rewrite append_cons. congruence. Qed.

Lemma append_nonempty_r (a b : string) : b ≠ "" → a +:+ b ≠ "".
Proof. destruct a; [trivial|]. rewrite append_cons. congruence. Qed.

(** The last character decides [endswith "/"]. *)
Lemma endswith_sep_append (a b : string) :
  b ≠ "" → PyStr.endswith "/" (a +:+ b) = PyStr.endswith "/" b.
Proof.
  intros Hb. induction a as [|x a IH]; [reflexivity|].
  rewrite append_cons. cbn [PyStr.endswith].
  destruct (String.eqb_spec "/" (String x (a +:+ b))) as [E|_].
  - injection E as _ E. symmetry in E. now apply append_nonempty_r in E.
  - exact IH.
Qed.

(** The first character decides [startswith "/"]. *)
Lemma startswith_sep_append (a b : string) :
  a ≠ "" → PyStr.startswith "/" (a +:+ b) = PyStr.startswith "/" a.
Proof.
  destruct a as [|x a]; [congruence|]. intros _.
  unfold PyStr.startswith. rewrite append_cons. cbn [String.prefix].
  destruct (ascii_dec _ x); [|reflexivity].
  destruct (a +:+ b), a; reflexivity.
Qed.

(** One step of [os.path.join] on a plain component. *)
Lemma join_step_plain (path b : string) :
  path ≠ "" → PyStr.endswith "/" path = false → PyStr.startswith "/" b = false →
  OsPath.join_step path b = path +:+ "/" +:+ b.
Proof.
  intros Hne He Hs. unfold OsPath.join_step, OsPath.sep. rewrite Hs, He.
  apply String.eqb_neq in Hne. now rewrite Hne.
Qed.

End StringFacts.

Section PathFacts.

Lemma plain_after_sep (path b : string) :
  b ≠ "" → PyStr.endswith "/" b = false →
  path +:+ "/" +:+ b ≠ "" ∧ PyStr.endswith "/" (path +:+ "/" +:+ b) = false.
Proof.
  intros Hb He. split.
  - apply append_nonempty_r. discriminate.
  - rewrite endswith_sep_append by discriminate.
    change ("/" +:+ b) with (String "/" "" +:+ b).
    now rewrite endswith_sep_append.
Qed.

Lemma aws_suffix_spec (dataset version resolution : string) :
  aws_suffix dataset version resolution = Spec.suffix dataset version resolution.
Proof.
  unfold aws_suffix, Spec.suffix, Spec.reg_marker.
  destruct (_ && _)%bool; reflexivity.
Qed.

Lemma suffix_not_absolute (identifier dataset version resolution : string) :
  PyStr.startswith "/" identifier = false →
  PyStr.startswith "/" (identifier +:+ aws_suffix dataset version resolution) = false.
Proof.
  intros H. destruct identifier as [|c t].
  - unfold aws_suffix. destruct (_ && _)%bool; reflexivity.
  - now rewrite startswith_sep_append.
Qed.

Lemma elem_of_VALID_MOSAIC_RES (resolution : string) :
  resolution ∈ VALID_MOSAIC_RES →
  resolution = "2m" ∨ resolution = "10m" ∨ resolution = "32m".
Proof.
  unfold VALID_MOSAIC_RES. rewrite !elem_of_cons, elem_of_nil. tauto.
Qed.

(** [_aws_link] on plain components: the fields joined by single
    separators. *)
Lemma aws_link_join (row : TileRow) (dataset version resolution prefix : string) :
  resolution ∈ VALID_MOSAIC_RES →
  prefix ≠ "" → PyStr.endswith "/" prefix = false →
  Spec.plain_component dataset →
  Spec.plain_component version →
  Spec.plain_component (supertile row) →
  (resolution = "2m" → PyStr.startswith "/" (tile row) = false) →
  _aws_link row dataset version resolution prefix
  = Ok (Spec.mosaic_tile_path prefix dataset version resolution row).
Proof.
  intros Hres Hp Hpe (Hd & Hds & Hde) (Hv & Hvs & Hve) (Hs & Hss & Hse) Ht.
  assert (Hid : PyStr.startswith "/" (Spec.identifier row resolution) = false).
  { unfold Spec.identifier.
    destruct (String.eqb_spec resolution "2m"); [now apply Ht | exact Hss]. }
  assert (Hr : Spec.plain_component resolution).
  { apply elem_of_VALID_MOSAIC_RES in Hres as [-> | [-> | ->]];
      repeat split; discriminate. }
  destruct Hr as (Hr & Hrs & Hre).
  assert (Hfname :
    (if String.eqb resolution "2m"
     then Ok (tile row +:+ aws_suffix dataset version resolution)
     else if PyStr.In_list resolution ["10m"; "32m"]
          then Ok (supertile row +:+ aws_suffix dataset version resolution)
          else Raise (ValueError "Input `resolution` must be one of ['2m', '10m', '32m']"))
    = Ok (Spec.identifier row resolution +:+ aws_suffix dataset version resolution)).
  { apply elem_of_VALID_MOSAIC_RES in Hres as [-> | [-> | ->]]; reflexivity. }
  unfold _aws_link. rewrite Hfname. f_equal.
  unfold OsPath.join. cbn [fold_left].
  pose proof (suffix_not_absolute _ dataset version resolution Hid) as Hf.
  rewrite (join_step_plain prefix dataset) by assumption.
  destruct (plain_after_sep prefix dataset Hd Hde) as [N1 E1].
  rewrite (join_step_plain _ "mosaics") by (assumption || reflexivity).
  destruct (plain_after_sep (prefix +:+ "/" +:+ dataset) "mosaics") as [N2 E2];
    [discriminate | reflexivity |].
  rewrite (join_step_plain _ version) by assumption.
  destruct (plain_after_sep
              ((prefix +:+ "/" +:+ dataset) +:+ "/" +:+ "mosaics") version Hv Hve)
    as [N3 E3].
  rewrite (join_step_plain _ resolution) by assumption.
  match goal with |- context [OsPath.join_step (?p +:+ "/" +:+ resolution) _] =>
    destruct (plain_after_sep p resolution Hr Hre) as [N4 E4] end.
  rewrite (join_step_plain _ (supertile row)) by assumption.
  match goal with |- context [OsPath.join_step (?p +:+ "/" +:+ supertile row) _] =>
    destruct (plain_after_sep p (supertile row) Hs Hse) as [N5 E5] end.
  rewrite join_step_plain by assumption.
  unfold Spec.mosaic_tile_path. rewrite aws_suffix_spec, !append_assoc.
  reflexivity.
Qed.

(** In [mosaic] the dataset, the version and the resolution have been
    checked and the prefix is [PREFIX]: only the codes of the record are
    left to be plain. *)
Lemma aws_link_in_mosaic (row : TileRow) (d v r : string) :
  supported d v →
  r ∈ VALID_MOSAIC_RES →
  Spec.plain_component (supertile row) →
  (r = "2m" → PyStr.startswith "/" (tile row) = false) →
  _aws_link row d v r PREFIX = Ok (Spec.mosaic_tile_path PREFIX d v r row).
Proof.
  intros Hs Hr Hsup Htile.
  apply aws_link_join; try assumption; try discriminate; try reflexivity;
    destruct Hs as [[-> [-> | ->]] | [-> ->]]; repeat split; discriminate.
Qed.

End PathFacts.

(** ** Path construction *)

(** C8. For a resolution among [2m], [10m], [32m] and components that are
    plain path segments, [_aws_link] returns
    [{root}/{dataset}/mosaics/{version}/{resolution}/{supertile}/{identifier}{suffix}]:
    the identifier is the tile code at [2m] and the supertile code at
    [10m] and [32m], and the suffix carries [_reg] exactly for ArcticDEM
    [v3.0]. *)
Theorem aws_link_path (row : TileRow) (dataset version resolution prefix : string) :
  resolution ∈ VALID_MOSAIC_RES →
  prefix ≠ "" → PyStr.endswith "/" prefix = false →
  Spec.plain_component dataset →
  Spec.plain_component version →
  Spec.plain_component (supertile row) →
  (resolution = "2m" → PyStr.startswith "/" (tile row) = false) →
  _aws_link row dataset version resolution prefix
  = Ok (prefix +:+ "/" +:+ dataset +:+ "/mosaics/" +:+ version +:+ "/" +:+ resolution
        +:+ "/" +:+ supertile row +:+ "/"
        +:+ Spec.identifier row resolution +:+ Spec.suffix dataset version resolution)
  ∧ (resolution = "2m" → Spec.identifier row resolution = tile row)
  ∧ (resolution = "10m" ∨ resolution = "32m" →
     Spec.identifier row resolution = supertile row)
  ∧ (dataset = "arcticdem" ∧ version = "v3.0" →
     Spec.suffix dataset version resolution
     = "_" +:+ resolution +:+ "_" +:+ version +:+ "_reg" +:+ "_dem.tif")
  ∧ (¬ (dataset = "arcticdem" ∧ version = "v3.0") →
     Spec.suffix dataset version resolution
     = "_" +:+ resolution +:+ "_" +:+ version +:+ "_dem.tif").
Proof.
  intros Hres Hp Hpe Hd Hv Hs Ht. repeat split.
  - rewrite aws_link_join by assumption. reflexivity.
  - intros ->. reflexivity.
  - intros [-> | ->]; reflexivity.
  - intros [-> ->]. reflexivity.
  - intros Hn. unfold Spec.suffix, Spec.reg_marker.
    destruct (String.eqb_spec dataset "arcticdem") as [Ed|Ed];
      destruct (String.eqb_spec version "v3.0") as [Ev|Ev];
      cbn [andb]; try reflexivity.
    exfalso. apply Hn. now split.
Qed.

(** The 10 m path of an ArcticDEM [v3.0] record. *)
Lemma aws_link_path_witness :
  _aws_link TestWorld.row_40_09_1_1 "arcticdem" "v3.0" "10m" PREFIX
  = Ok "https://pgc-opendata-dems.s3.us-west-2.amazonaws.com/arcticdem/mosaics/v3.0/10m/40_09/40_09_10m_v3.0_reg_dem.tif".
Proof.
  refine (proj1 (aws_link_path TestWorld.row_40_09_1_1 "arcticdem" "v3.0" "10m" PREFIX
                   _ _ _ _ _ _ _)).
  - unfold VALID_MOSAIC_RES. apply list_elem_of_further, list_elem_of_here.
  - discriminate.
  - reflexivity.
  - repeat split; discriminate.
  - repeat split; discriminate.
  - repeat split; discriminate.
  - discriminate.
Defined.

(** C10. [from_id] lower-cases [dataset] and [geocell] before it builds
    any path: a call with a mixed-case geocell (or dataset) is the same
    computation, with the same paths opened and the same preview URL, as
    the call with the lower-case form. *)
Theorem from_id_case_insensitive (w : World) (dataset geocell dem_id : string)
    (bounds : option bounds_arg) (bitmask : bool) (bucket version : string)
    (preview : bool) :
  from_id w dataset geocell dem_id bounds bitmask bucket version preview
  = from_id w dataset (PyStr.lower geocell) dem_id bounds bitmask bucket version preview
  ∧ from_id w dataset geocell dem_id bounds bitmask bucket version preview
    = from_id w (PyStr.lower dataset) geocell dem_id bounds bitmask bucket version preview
  ∧ run (from_id w dataset geocell dem_id bounds bitmask bucket version true)
    = (Ok (PreviewPath
             (OsPath.join BROWSER_PREFIX
                [PyStr.lower dataset; "strips"; version; "2m"; PyStr.lower geocell;
                 dem_id +:+ ".json"])), [])
  ∧ from_id w dataset geocell dem_id bounds bitmask bucket version false
    = (dem <- from_fpath w
         (OsPath.join bucket
            [PyStr.lower dataset; "strips"; version; "2m"; PyStr.lower geocell;
             dem_id +:+ "_dem.tif"])
         bounds
         (if bitmask
          then Some (OsPath.join bucket
                       [PyStr.lower dataset; "strips"; version; "2m"; PyStr.lower geocell;
                        dem_id +:+ "_bitmask.tif"])
          else None) ;;
       io_ret (Strip dem))
  ∧ PyStr.lower "N70W051" = "n70w051".
Proof.
  repeat split; unfold from_id; rewrite ?lower_idemp; reflexivity.
Qed.

(** ** Validation in [mosaic] *)
Section Validation.

Variable w : World.

(** The monad on results that are already known. *)
Lemma bind_lift_ok {A B} (a : A) (k : A → IO B) (log : list event) :
  io_bind (io_lift (Ok a)) k log = k a log.
Proof. reflexivity. Qed.

Lemma bind_lift_raise {A B} (e : exn) (k : A → IO B) (log : list event) :
  io_bind (io_lift (Raise e)) k log = (Raise e, log).
Proof. reflexivity. Qed.

Lemma lower_in_keys (dataset : string) :
  PyStr.In_list (PyStr.lower dataset) (dict_keys VERSIONS) = true →
  PyStr.lower dataset = "arcticdem" ∨ PyStr.lower dataset = "rema".
Proof.
  intros H. apply bool_decide_eq_true in H. cbn in H.
  rewrite !elem_of_cons, elem_of_nil in H. tauto.
Qed.

Lemma check_dataset_version_supported (dataset : string) (version : option string)
    (d v : string) :
  check_dataset_version w dataset version = Ok (d, v) → supported d v.
Proof.
  unfold check_dataset_version, supported.
  destruct (PyStr.In_list (PyStr.lower dataset) (dict_keys VERSIONS)) eqn:Hk;
    cbn [negb]; [|discriminate].
  apply lower_in_keys in Hk as [-> | ->]; cbn [getitem dict_get VERSIONS String.eqb];
    cbn.
  - destruct version as [v0|]; cbn.
    + destruct (PyStr.In_list v0 ["v3.0"; "v4.1"]) eqn:Hv; cbn [negb]; [|discriminate].
      apply bool_decide_eq_true in Hv. rewrite !elem_of_cons, elem_of_nil in Hv.
      intros [= <- <-]. tauto.
    + intros [= <- <-]. tauto.
  - destruct version as [v0|]; cbn.
    + destruct (PyStr.In_list v0 ["v2.0"]) eqn:Hv; cbn [negb]; [|discriminate].
      apply bool_decide_eq_true in Hv. rewrite !elem_of_cons, elem_of_nil in Hv.
      intros [= <- <-]. tauto.
    + intros [= <- <-]. tauto.
Qed.

Lemma supported_checked (d v : string) :
  supported d v → check_dataset_version w d (Some v) = Ok (d, v).
Proof.
  intros [[-> [-> | ->]] | [-> ->]]; reflexivity.
Qed.

Lemma supported_index_layer (d v : string) :
  supported d v ↔ ∃ layer, index_layer d v = Ok layer.
Proof.
  split.
  - intros [[-> [-> | ->]] | [-> ->]]; eexists; reflexivity.
  - intros [layer H]. unfold index_layer, supported in *.
    destruct (String.eqb_spec d "arcticdem"), (String.eqb_spec d "rema"),
      (String.eqb_spec v "v3.0"), (String.eqb_spec v "v4.1"), (String.eqb_spec v "v2.0");
      cbn in H; try discriminate; tauto.
Qed.

Lemma supported_index_fpath (d v : string) :
  supported d v ↔ ∃ fpath, _get_index_fpath w d v = Ok fpath.
Proof.
  split.
  - intros [[-> [-> | ->]] | [-> ->]]; eexists; reflexivity.
  - intros [fpath H]. unfold _get_index_fpath, supported in *.
    destruct (String.eqb_spec d "arcticdem"), (String.eqb_spec d "rema"),
      (String.eqb_spec v "v3.0"), (String.eqb_spec v "v4.1"), (String.eqb_spec v "v2.0");
      cbn in H; try discriminate; tauto.
Qed.

End Validation.

(** A call of [mosaic] that passes the checks of dataset, version and
    resolution goes on to read the index. *)
Lemma mosaic_validated (w : World) (dataset : string) (resolution : resolution_arg)
    (bounds : option bounds_arg) (version : option string)
    (d v r layer fpath : string) (log : list event) :
  check_dataset_version w dataset version = Ok (d, v) →
  check_resolution resolution = Ok r →
  index_layer d v = Ok layer →
  _get_index_fpath w d v = Ok fpath →
  mosaic w dataset resolution bounds version log
  = (tiles <- io_lift (read_file w fpath layer (sanitise_bounds w bounds)) ;;
     mosaic_tiles w d v r (sanitise_bounds w bounds) tiles)
      (log ++ [ReadIndex fpath layer])%list.
Proof.
  intros Hdv Hr Hl Hf. unfold mosaic.
  rewrite Hdv, bind_lift_ok. cbn [fst snd].
  rewrite Hr, bind_lift_ok, Hl, bind_lift_ok, Hf, bind_lift_ok.
  reflexivity.
Qed.

(** C9. After the validation of dataset and version in [mosaic], the
    layer lookup of [mosaic] and the file name lookup of
    [_get_index_fpath] both succeed, so that a call with a valid
    resolution goes on to read the index; and the two lookups succeed on
    no other pair than those the validation lets through. *)
Theorem config_error_unreachable (w : World) (dataset : string)
    (version : option string) (d v : string) :
  check_dataset_version w dataset version = Ok (d, v) →
  (∃ layer fpath,
      index_layer d v = Ok layer
      ∧ _get_index_fpath w d v = Ok fpath
      ∧ ∀ resolution r bounds log,
          check_resolution resolution = Ok r →
          mosaic w dataset resolution bounds version log
          = (tiles <- io_lift (read_file w fpath layer (sanitise_bounds w bounds)) ;;
             mosaic_tiles w d v r (sanitise_bounds w bounds) tiles)
              (log ++ [ReadIndex fpath layer])%list)
  ∧ (∀ d' v', (∃ layer, index_layer d' v' = Ok layer) →
              check_dataset_version w d' (Some v') = Ok (d', v'))
  ∧ (∀ d' v', (∃ fpath, _get_index_fpath w d' v' = Ok fpath) →
              check_dataset_version w d' (Some v') = Ok (d', v')).
Proof.
  intros H. split; [|split].
  - pose proof (check_dataset_version_supported w _ _ _ _ H) as Hs.
    destruct (proj1 (supported_index_layer d v) Hs) as [layer Hl].
    destruct (proj1 (supported_index_fpath w d v) Hs) as [fpath Hf].
    exists layer, fpath. repeat split; [assumption..|].
    intros resolution r bounds log Hr. now apply mosaic_validated.
  - intros d' v' Hl. now apply supported_checked, supported_index_layer.
  - intros d' v' Hf. now apply supported_checked, (supported_index_fpath w).
Qed.

(** REMA with its default version: both lookups return and the run
    reaches the index. *)
Lemma config_error_unreachable_witness :
  ∃ layer fpath,
    index_layer "rema" "v2.0" = Ok layer
    ∧ _get_index_fpath TestWorld.world "rema" "v2.0" = Ok fpath
    ∧ run (mosaic TestWorld.world "REMA" (ResStr "2m") (Some TestWorld.far_away) None)
      = (Raise (ValueError NO_TILES_MSG), [ReadIndex fpath layer]).
Proof.
  destruct (config_error_unreachable TestWorld.world "REMA" None "rema" "v2.0" eq_refl)
    as [(layer & fpath & Hl & Hf & Hm) _].
  exists layer, fpath. repeat split; [assumption..|].
  unfold run. rewrite (Hm (ResStr "2m") "2m" _ _ eq_refl).
  injection Hl as <-. injection Hf as <-. reflexivity.
Defined.

(** C6. For a supported dataset, a call of [mosaic] without a version
    works with the last version listed for the dataset, [v4.1] for
    ArcticDEM and [v2.0] for REMA, and is the same computation as the
    call that names that version; a version that is not listed for the
    dataset is rejected with a [ValueError], before any I/O. *)
Theorem default_version_is_latest (w : World) (dataset : string) :
  PyStr.lower dataset ∈ dict_keys VERSIONS →
  ∃ versions latest,
    dict_get VERSIONS (PyStr.lower dataset) = Some versions
    ∧ last versions = Some latest
    ∧ check_dataset_version w dataset None = Ok (PyStr.lower dataset, latest)
    ∧ (∀ resolution bounds,
         mosaic w dataset resolution bounds None
         = mosaic w dataset resolution bounds (Some latest))
    ∧ (PyStr.lower dataset = "arcticdem" → latest = "v4.1")
    ∧ (PyStr.lower dataset = "rema" → latest = "v2.0")
    ∧ (∀ version resolution bounds log,
         version ∉ versions →
         mosaic w dataset resolution bounds (Some version) log
         = (Raise (ValueError (version_error_msg (PyStr.lower dataset) versions version)),
            log)).
Proof.
  intros Hk.
  assert (Hin : PyStr.In_list (PyStr.lower dataset) (dict_keys VERSIONS) = true)
    by now apply bool_decide_eq_true.
  assert (Hrej : ∀ versions,
    getitem VERSIONS (PyStr.lower dataset) = Ok versions →
    ∀ version resolution bounds log,
      version ∉ versions →
      mosaic w dataset resolution bounds (Some version) log
      = (Raise (ValueError (version_error_msg (PyStr.lower dataset) versions version)),
         log)).
  { intros versions Hg version resolution bounds log Hv.
    unfold mosaic, check_dataset_version. rewrite Hin, Hg. cbn [negb].
    assert (PyStr.In_list version versions = false) as ->
      by now apply bool_decide_eq_false.
    reflexivity. }
  destruct (lower_in_keys dataset Hin) as [E | E].
  - exists ["v3.0"; "v4.1"], "v4.1".
    assert (Hc : ∀ version,
      check_dataset_version w dataset version
      = check_dataset_version w "arcticdem" version).
    { intros version. unfold check_dataset_version. now rewrite E. }
    repeat split.
    + now rewrite E.
    + now rewrite Hc, E.
    + intros resolution bounds. unfold mosaic. now rewrite !Hc.
    + rewrite E. discriminate.
    + apply Hrej. now rewrite E.
  - exists ["v2.0"], "v2.0".
    assert (Hc : ∀ version,
      check_dataset_version w dataset version
      = check_dataset_version w "rema" version).
    { intros version. unfold check_dataset_version. now rewrite E. }
    repeat split.
    + now rewrite E.
    + now rewrite Hc, E.
    + intros resolution bounds. unfold mosaic. now rewrite !Hc.
    + rewrite E. discriminate.
    + apply Hrej. now rewrite E.
Qed.

(** ArcticDEM: the default is [v4.1], and [v2.0] is turned down. *)
Lemma default_version_is_latest_witness :
  check_dataset_version TestWorld.world "ArcticDEM" None = Ok ("arcticdem", "v4.1")
  ∧ run (mosaic TestWorld.world "ArcticDEM" (ResStr "2m") (Some TestWorld.aoi) (Some "v2.0"))
    = (Raise (ValueError
                "Version of arcticdem must be one of ['v3.0', 'v4.1']. Currently `v2.0`"),
       []).
Proof.
  assert (Hk : PyStr.lower "ArcticDEM" ∈ dict_keys VERSIONS) by apply list_elem_of_here.
  destruct (default_version_is_latest TestWorld.world "ArcticDEM" Hk)
    as (versions & latest & Hg & Hl & Hc & _ & Ha & _ & Hrej).
  injection Hg as <-. split.
  - rewrite Hc, (Ha eq_refl). reflexivity.
  - unfold run. rewrite Hrej; [reflexivity|].
    rewrite !elem_of_cons, elem_of_nil. intros [H | [H | []]]; discriminate.
Defined.

(** C7. An integer resolution is turned into its decimal digits followed
    by [m]; [mosaic] called with 2, 10 or 32 is the same computation as
    [mosaic] called with ["2m"], ["10m"] or ["32m"], whatever the
    dataset, the bounds and the version. *)
Theorem int_resolution_same_as_str (w : World) (dataset : string)
    (bounds : option bounds_arg) (version : option string) :
  mosaic w dataset (ResInt 10) bounds version
  = mosaic w dataset (ResStr "10m") bounds version
  ∧ mosaic w dataset (ResInt 2) bounds version
    = mosaic w dataset (ResStr "2m") bounds version
  ∧ mosaic w dataset (ResInt 32) bounds version
    = mosaic w dataset (ResStr "32m") bounds version
  ∧ ∀ n, mosaic w dataset (ResInt n) bounds version
         = mosaic w dataset (ResStr (pretty n +:+ "m")) bounds version.
Proof.
  assert (H : ∀ n, mosaic w dataset (ResInt n) bounds version
                   = mosaic w dataset (ResStr (pretty n +:+ "m")) bounds version)
    by reflexivity.
  split; [apply (H 10) | split; [apply (H 2) | split; [apply (H 32) | exact H]]].
Qed.

(** ** Errors of [mosaic] *)

Lemma check_dataset_version_raises (w : World) (dataset : string)
    (version : option string) (e : exn) :
  check_dataset_version w dataset version = Raise e → validation_error w e.
Proof.
  unfold check_dataset_version, validation_error.
  destruct (PyStr.In_list (PyStr.lower dataset) (dict_keys VERSIONS)) eqn:Hk;
    cbn [negb].
  - apply lower_in_keys in Hk as [-> | ->];
      cbn [getitem dict_get VERSIONS String.eqb]; cbn;
      (destruct version as [v0|]; cbn; [|discriminate]).
    + destruct (PyStr.In_list v0 _); cbn [negb]; [discriminate|].
      intros [= <-]. right; left. eauto.
    + destruct (PyStr.In_list v0 _); cbn [negb]; [discriminate|].
      intros [= <-]. right; left. eauto.
  - intros [= <-]. left. eauto.
Qed.

Lemma check_resolution_raises (w : World) (resolution : resolution_arg) (e : exn) :
  check_resolution resolution = Raise e → validation_error w e.
Proof.
  unfold check_resolution, validation_error.
  destruct (PyStr.In_list _ VALID_MOSAIC_RES); cbn [negb]; [discriminate|].
  intros [= <-]. right; right. eauto.
Qed.

Lemma no_tiles_not_validation (w : World) :
  ¬ validation_error w (ValueError NO_TILES_MSG).
Proof.
  intros [[d H] | [(d & vs & v & H) | [r H]]]; injection H as H; discriminate H.
Qed.

(** Validation failures happen with nothing read or opened. *)
Lemma validation_before_io (w : World) (dataset : string) (resolution : resolution_arg)
    (bounds : option bounds_arg) (version : option string) (e : exn) (log : list event) :
  check_dataset_version w dataset version = Raise e
  ∨ ((∃ dv, check_dataset_version w dataset version = Ok dv)
     ∧ check_resolution resolution = Raise e) →
  mosaic w dataset resolution bounds version log = (Raise e, log).
Proof.
  unfold mosaic. intros [H | [[dv H] Hr]]; rewrite H.
  - reflexivity.
  - rewrite bind_lift_ok, Hr. reflexivity.
Qed.

(** The messages for a bad version and a bad resolution print the
    accepted values. *)
Lemma version_error_lists_versions (dataset version : string) :
  version_error_msg dataset ["v3.0"; "v4.1"] version
  = "Version of " +:+ dataset +:+ " must be one of ['v3.0', 'v4.1']. Currently `"
    +:+ version +:+ "`"
  ∧ version_error_msg dataset ["v2.0"] version
    = "Version of " +:+ dataset +:+ " must be one of ['v2.0']. Currently `"
      +:+ version +:+ "`".
Proof. split; reflexivity. Qed.

Lemma resolution_error_lists_resolutions (resolution : string) :
  resolution_error_msg resolution
  = "Resolution must be one of ['2m', '10m', '32m']. Currently `" +:+ resolution +:+ "`".
Proof. reflexivity. Qed.

(** C5. When dataset, version and resolution are supported and the index
    holds no record that meets the bounds, [mosaic] raises the no-tiles
    [ValueError] right after reading the index. Its message is none of
    the messages of the validation errors (the exception class is
    [ValueError] in both cases), nor that of the configuration error. *)
Theorem no_tiles_error (w : World) (dataset : string) (resolution : resolution_arg)
    (bounds : option bounds_arg) (version : option string)
    (d v r layer fpath : string) (log : list event) :
  check_dataset_version w dataset version = Ok (d, v) →
  check_resolution resolution = Ok r →
  index_layer d v = Ok layer →
  _get_index_fpath w d v = Ok fpath →
  read_file w fpath layer (sanitise_bounds w bounds) = Ok [] →
  mosaic w dataset resolution bounds version log
  = (Raise (ValueError NO_TILES_MSG), (log ++ [ReadIndex fpath layer])%list)
  ∧ ¬ validation_error w (ValueError NO_TILES_MSG)
  ∧ ValueError NO_TILES_MSG ≠ ValueError CONFIG_ERROR_MSG.
Proof.
  intros Hdv Hr Hl Hf Hread. split; [|split].
  - rewrite (mosaic_validated w _ _ _ _ d v r layer fpath) by assumption.
    rewrite Hread. reflexivity.
  - apply no_tiles_not_validation.
  - discriminate.
Qed.

(** Bounds far from every footprint of the small world. *)
Lemma no_tiles_error_witness :
  run (mosaic TestWorld.world "rema" (ResStr "32m") (Some TestWorld.far_away) None)
  = (Raise (ValueError NO_TILES_MSG),
     [ReadIndex "/site-packages/pdemtools/mosaic_index/REMA_Mosaic_Index_v2_gpkg.gpkg"
                "REMA_Mosaic_Index_v2_2m"]).
Proof.
  exact (proj1 (no_tiles_error TestWorld.world "rema" (ResStr "32m")
                  (Some TestWorld.far_away) None "rema" "v2.0" "32m" _ _ []
                  eq_refl eq_refl eq_refl eq_refl eq_refl)).
Defined.

(** An occurrence of a needle starts at an occurrence of its first
    character. *)
Lemma contains_skip (c : ascii) (n a b : string) :
  PyStr.contains (String c "") a = false →
  PyStr.contains (String c n) (a +:+ b) = PyStr.contains (String c n) b.
Proof.
  induction a as [|x a IH]; [reflexivity|].
  rewrite append_cons. cbn [PyStr.contains String.prefix].
  destruct (ascii_dec c x) as [_|_].
  - now destruct a.
  - exact IH.
Qed.

(** C4. For the dataset ["foo"], [mosaic] raises its [ValueError] before
    any I/O, but the message prints the [keys] method of the dict rather
    than the keys: with the address printed in hexadecimal (so without
    the letter r), the accepted value [rema] occurs nowhere in it. *)
Theorem dataset_error_omits_accepted_values (w : World) (resolution : resolution_arg)
    (bounds : option bounds_arg) (version : option string) :
  PyStr.contains "r" (dict_addr w) = false →
  run (mosaic w "foo" resolution bounds version)
  = (Raise (ValueError (dataset_error_msg w "foo")), [])
  ∧ dataset_error_msg w "foo"
    = "Dataset must be one of <built-in method keys of dict object at 0x"
      +:+ dict_addr w +:+ ">. Currently `foo`."
  ∧ PyStr.contains "rema" (dataset_error_msg w "foo") = false.
Proof.
  intros Haddr.
  assert (Hmsg : dataset_error_msg w "foo"
    = "Dataset must be one of <built-in method keys of dict object at 0x"
      +:+ dict_addr w +:+ ">. Currently `foo`.").
  { unfold dataset_error_msg, repr_keys_method. rewrite !append_assoc. reflexivity. }
  split; [reflexivity | split; [exact Hmsg|]].
  rewrite Hmsg, contains_skip by reflexivity.
  rewrite contains_skip by exact Haddr.
  reflexivity.
Qed.

(** The message in the small world. *)
Lemma dataset_error_omits_accepted_values_witness :
  run (mosaic TestWorld.world "foo" (ResStr "2m") (Some TestWorld.aoi) None)
  = (Raise (ValueError
       "Dataset must be one of <built-in method keys of dict object at 0x7f3c2a1be4c0>. Currently `foo`."),
     [])
  ∧ PyStr.contains "rema"
      "Dataset must be one of <built-in method keys of dict object at 0x7f3c2a1be4c0>. Currently `foo`."
    = false.
Proof.
  destruct (dataset_error_omits_accepted_values TestWorld.world (ResStr "2m")
              (Some TestWorld.aoi) None eq_refl) as (Hrun & Hmsg & Hc).
  split.
  - rewrite Hrun. reflexivity.
  - exact Hc.
Defined.

(** ** Nodata filtering *)
Section Nodata.

(** [SFcompare] read the other way round. *)
Lemma SFcompare_antisym (x y : spec_float) :
  SFcompare y x = option_map CompOpp (SFcompare x y).
Proof.
  destruct x as [sx|sx| |sx mx ex], y as [sy|sy| |sy my ey];
    try destruct sx; try destruct sy; try reflexivity; cbn [SFcompare option_map];
    rewrite (Z.compare_antisym ex ey); destruct (ex ?= ey)%Z; cbn [CompOpp];
    try reflexivity; f_equal;
    change (Pos.compare_cont Eq my mx) with (Pos.compare my mx);
    change (Pos.compare_cont Eq mx my) with (Pos.compare mx my);
    rewrite (Pos.compare_antisym mx my); destruct (mx ?= my)%positive; reflexivity.
Qed.

Lemma SFltb_not_eqb (x y : spec_float) : SFltb x y = true → SFeqb y x = false.
Proof.
  unfold SFltb, SFeqb. rewrite (SFcompare_antisym x y).
  destruct (SFcompare x y) as [[]|]; cbn; congruence.
Qed.

Lemma SFeqb_not_ltb (x y : spec_float) : SFeqb x y = true → SFltb y x = false.
Proof.
  unfold SFltb, SFeqb. rewrite (SFcompare_antisym x y).
  destruct (SFcompare x y) as [[]|]; cbn; congruence.
Qed.

Lemma where_gt_data (c : list spec_float) (t : spec_float) :
  zip_with (λ (v : spec_float) (b : bool), if b then v else NAN)
    c (map (λ v, SFltb t v) c)
  = map (λ x, if SFltb t x then x else NAN) c.
Proof. induction c as [|x c IH]; cbn; [reflexivity | now rewrite IH]. Qed.

Lemma where_gt_cells (r : raster) (t : spec_float) :
  data (where_ r (raster_gt r t)) = map (λ x, if SFltb t x then x else NAN) (data r).
Proof. apply where_gt_data. Qed.

Lemma map_lookup_Some {A B} (f : A → B) (l : list A) (k : nat) (y : B) :
  map f l !! k = Some y → ∃ x, l !! k = Some x ∧ y = f x.
Proof.
  change (map f l) with (f <$> l). rewrite list_lookup_fmap_Some.
  intros (x & -> & Hx). eauto.
Qed.

(** One cell through the nodata filter. *)
Lemma nodata_cell (x : spec_float) :
  SFeqb (if SFltb NODATA x then x else NAN) NODATA = false
  ∧ ((if SFltb NODATA x then x else NAN) = x ∨ (if SFltb NODATA x then x else NAN) = NAN)
  ∧ (SFeqb x NODATA = true → (if SFltb NODATA x then x else NAN) = NAN).
Proof.
  destruct (SFltb NODATA x) eqn:Hlt.
  - split; [now apply SFltb_not_eqb|]. split; [now left|].
    intros Heq. apply SFeqb_not_ltb in Heq. congruence.
  - split; [reflexivity|]. split; [now right | reflexivity].
Qed.

Lemma where_gt_filtered (r : raster) :
  filtered_from r (all_positions r) (where_ r (raster_gt r NODATA)).
Proof.
  unfold filtered_from, all_positions. rewrite where_gt_cells. split.
  - now rewrite length_map, length_seq.
  - intros k v Hv. apply map_lookup_Some in Hv as (x & Hx & ->).
    destruct (nodata_cell x) as (H1 & H2 & H3). split; [exact H1|].
    exists k, x. split; [|auto].
    apply lookup_seq. split; [reflexivity | now apply lookup_lt_Some in Hx].
Qed.

Lemma where_mask_filtered (w : World) (c mk : raster) :
  filtered_from c (map fst (snd (align w (where_ c (raster_gt c NODATA)) mk)))
    (where_mask w (where_ c (raster_gt c NODATA)) mk).
Proof.
  unfold filtered_from, where_mask. cbn [data]. split.
  - now rewrite !length_map.
  - intros k v Hv. apply map_lookup_Some in Hv as ([i j] & Hij & ->).
    assert (Hsel : map fst (snd (align w (where_ c (raster_gt c NODATA)) mk)) !! k
                   = Some i).
    { change (map fst ?l) with (fst <$> l). now rewrite list_lookup_fmap, Hij. }
    assert (Hi : (i < length (data c))%nat).
    { apply list_elem_of_lookup_2, (align_spec w) in Hij as [Hi _].
      cbn [fst] in Hi. now rewrite where_gt_cells, length_map in Hi. }
    apply lookup_lt_is_Some_2 in Hi as [x Hx].
    unfold mask_cell. cbn [fst snd]. rewrite where_gt_cells.
    change (map ?f ?l) with (f <$> l). rewrite list_lookup_fmap, Hx. cbn [fmap option_fmap option_map].
    destruct (nodata_cell x) as (H1 & H2 & H3).
    destruct (data mk !! j) as [m|]; [destruct (SFeqb m ZERO)|].
    + split; [exact H1|]. exists i, x. auto.
    + split; [reflexivity|]. exists i, x. auto.
    + split; [reflexivity|]. exists i, x. auto.
Qed.

Lemma strip_result_filtered (w : World) (c : raster) (mask : option raster) :
  filtered_from c (strip_positions w c mask) (strip_result w c mask).
Proof.
  destruct mask as [mk|]; unfold strip_result, strip_positions.
  - apply where_mask_filtered.
  - apply where_gt_filtered.
Qed.

(** A further filter on the raster itself keeps what was established. *)
Lemma filtered_from_where_gt (src : raster) (sel : list nat) (p : raster)
    (t : spec_float) :
  filtered_from src sel p → filtered_from src sel (where_ p (raster_gt p t)).
Proof.
  intros [Hlen Hcells]. unfold filtered_from. rewrite where_gt_cells. split.
  - now rewrite length_map.
  - intros k v Hv. apply map_lookup_Some in Hv as (y & Hy & ->).
    destruct (Hcells k y Hy) as (H1 & i & x & Hi & Hx & H2 & H3).
    destruct (SFltb t y); [eauto 10|].
    split; [reflexivity|]. exists i, x. auto.
Qed.

Lemma squeeze_no_singleton (r : raster) (d : string * nat) :
  d ∈ dims (squeeze r) → snd d ≠ 1%nat.
Proof.
  unfold squeeze. cbn [dims]. rewrite list_elem_of_filter. tauto.
Qed.

End Nodata.

(** ** What the loaders return *)
Section Returned.

Variable w : World.

(** A successful run of [from_fpath], in full: what is opened, what the
    bitmask is clipped to, and the raster returned. *)
Lemma from_fpath_inv (dem_fpath : string) (bounds : option bounds_arg)
    (bitmask_fpath : option string) (log log' : list event) (r : raster) :
  from_fpath w dem_fpath bounds bitmask_fpath log = (Ok r, log') →
  ∃ c mask,
    strip_sources w dem_fpath (sanitise_bounds w bounds) bitmask_fpath c mask
    ∧ r = strip_result w c mask
    ∧ log' = (log ++ strip_events dem_fpath bitmask_fpath)%list.
Proof.
  unfold from_fpath, open_raster, io_bind, io_emit, io_lift, io_ret.
  intros H. repeat case_match; simplify_eq; cbn [fst snd] in *.
  all: try match goal with H : Some _ = Some _ |- _ => injection H as <- end.
  all: unfold strip_sources, strip_source, effective_bounds, strip_result, strip_events.
  - eexists _, (Some _). split; [split; eexists; split; eassumption|].
    split; [reflexivity | now rewrite <- app_assoc].
  - eexists _, (Some _).
    split; [split; eexists; split; [eassumption | reflexivity | eassumption..]|].
    split; [reflexivity | now rewrite <- app_assoc].
  - eexists _, None. split; [split; [eexists; split; eassumption | exact I]|]. auto.
  - eexists _, None.
    split; [split; [eexists; split; [eassumption | reflexivity] | exact I]|]. auto.
Qed.

Lemma open_clip_box_ok (fpath : string) (bounds : option Bounds)
    (log log' : list event) (dem : raster) :
  open_clip_box w fpath bounds log = (Ok dem, log') →
  tile_loaded w bounds fpath dem ∧ log' = (log ++ [OpenRaster fpath])%list.
Proof.
  unfold open_clip_box, open_raster, io_bind, io_emit, io_lift, io_raise, tile_loaded.
  intros H. repeat case_match; simplify_eq. eauto 10.
Qed.

Lemma load_dems_ok (fpaths : list string) (bounds : option Bounds)
    (log log' : list event) (dems : list raster) :
  load_dems w fpaths bounds log = (Ok dems, log') →
  Forall2 (tile_loaded w bounds) fpaths dems
  ∧ log' = (log ++ (OpenRaster <$> fpaths))%list.
Proof.
  revert log log' dems.
  induction fpaths as [|fpath rest IH]; intros log log' dems; cbn [load_dems].
  - intros [= <- <-]. split; [constructor | now rewrite app_nil_r].
  - unfold io_bind at 1.
    destruct (open_clip_box w fpath bounds log) as [[dem|e] log1] eqn:Ho; [|discriminate].
    apply open_clip_box_ok in Ho as [Hdem ->].
    unfold io_bind at 1.
    destruct (load_dems w rest bounds _) as [[dems'|e] log2] eqn:Hl; [|discriminate].
    apply IH in Hl as [Hrest ->].
    intros [= <- <-]. split; [now constructor|].
    rewrite <- app_assoc. reflexivity.
Qed.

Lemma assemble_ok (bounds : option Bounds) (fpaths : list string) (dems : list raster)
    (log log' : list event) (res : raster) :
  Forall2 (tile_loaded w bounds) fpaths dems →
  ((if (length fpaths =? 1)%nat
    then match fpaths with
         | fpath0 :: _ => open_clip_box w fpath0 bounds ;;; io_ret tt
         | [] => io_raise (IndexError "list index out of range")
         end
    else io_ret tt) ;;;
   dem <- (if (1 <? length dems)%nat then io_lift (merge_arrays w dems)
           else match dems with
                | dem0 :: _ => io_ret dem0
                | [] => io_raise (IndexError "list index out of range")
                end) ;;
   io_ret (where_ dem (raster_gt dem NODATA))) log = (Ok res, log') →
  ∃ dem, assembled w bounds fpaths dem
         ∧ res = where_ dem (raster_gt dem NODATA)
         ∧ log' = (log ++ reopened fpaths)%list.
Proof.
  intros Hd. pose proof Hd as Hall.
  destruct Hd as [|p dem ups dems' Hp [|p2 dem2 ups2 dems2 Hp2 Hrest]].
  - discriminate.
  - cbn [length Nat.eqb Nat.ltb Nat.leb reopened]. unfold io_bind at 1.
    unfold io_bind at 1.
    destruct (open_clip_box w p bounds log) as [[x|e] log1] eqn:Ho; [|discriminate].
    apply open_clip_box_ok in Ho as [_ ->].
    intros [= <- <-]. exists dem. split; [|split; reflexivity].
    exists [dem]. split; [exact Hall | now right].
  - cbn [length Nat.eqb Nat.ltb Nat.leb reopened]. unfold io_bind, io_ret, io_lift.
    destruct (merge_arrays w _) as [dem'|e] eqn:Hm; [|discriminate].
    intros [= <- <-]. exists dem'. split; [|split; [reflexivity | now rewrite app_nil_r]].
    eexists. split; [exact Hall|]. left. split; [cbn; lia | exact Hm].
Qed.

Lemma mosaic_tiles_ok (d v r : string) (bounds : option Bounds) (tiles : list TileRow)
    (log log' : list event) (res : raster) :
  mosaic_tiles w d v r bounds tiles log = (Ok res, log') →
  ∃ fpaths dem,
    tile_fpaths tiles d v r = Ok fpaths
    ∧ assembled w bounds (unique_fpaths w fpaths) dem
    ∧ res = where_ dem (raster_gt dem NODATA)
    ∧ log' = (log ++ (OpenRaster <$> unique_fpaths w fpaths)
                  ++ reopened (unique_fpaths w fpaths))%list.
Proof.
  unfold mosaic_tiles.
  destruct (length tiles <? 1)%nat; [discriminate|].
  destruct (tile_fpaths tiles d v r) as [fpaths|e]; [|discriminate].
  rewrite bind_lift_ok. cbv zeta.
  unfold io_bind at 1.
  destruct (load_dems w (unique_fpaths w fpaths) bounds log) as [[dems|e] log1] eqn:Hl;
    [|discriminate].
  apply load_dems_ok in Hl as [Hdems ->].
  intros H. apply (assemble_ok _ _ _ _ _ _ Hdems) in H as (dem & Ha & -> & ->).
  exists fpaths, dem. rewrite <- app_assoc. auto.
Qed.

(** A successful run of [mosaic], stage by stage. *)
Lemma mosaic_ok (dataset : string) (resolution : resolution_arg)
    (bounds : option bounds_arg) (version : option string)
    (log log' : list event) (res : raster) :
  mosaic w dataset resolution bounds version log = (Ok res, log') →
  ∃ d v r layer index_fpath tiles,
    check_dataset_version w dataset version = Ok (d, v)
    ∧ check_resolution resolution = Ok r
    ∧ index_layer d v = Ok layer
    ∧ _get_index_fpath w d v = Ok index_fpath
    ∧ read_file w index_fpath layer (sanitise_bounds w bounds) = Ok tiles
    ∧ mosaic_tiles w d v r (sanitise_bounds w bounds) tiles
        (log ++ [ReadIndex index_fpath layer])%list = (Ok res, log').
Proof.
  unfold mosaic.
  destruct (check_dataset_version w dataset version) as [[d v]|e] eqn:Hdv; [|discriminate].
  rewrite bind_lift_ok. cbn [fst snd].
  destruct (check_resolution resolution) as [r|e] eqn:Hres; [|discriminate].
  rewrite bind_lift_ok.
  destruct (index_layer d v) as [layer|e] eqn:Hl; [|discriminate].
  rewrite bind_lift_ok.
  destruct (_get_index_fpath w d v) as [index_fpath|e] eqn:Hf; [|discriminate].
  rewrite bind_lift_ok. unfold io_bind at 1, io_emit.
  destruct (read_file w index_fpath layer (sanitise_bounds w bounds)) as [tiles|e] eqn:Hr;
    [|discriminate].
  rewrite bind_lift_ok. intros H.
  exists d, v, r, layer, index_fpath, tiles. auto 10.
Qed.

End Returned.

(** ** Deduplication of the tile paths *)

(** [list(set(fpaths))] has no duplicates and the same members as
    [fpaths]: no path is dropped and none is added. *)
Lemma unique_fpaths_spec (w : World) (fpaths : list string) :
  NoDup (unique_fpaths w fpaths)
  ∧ ∀ fpath, fpath ∈ unique_fpaths w fpaths ↔ fpath ∈ fpaths.
Proof.
  unfold unique_fpaths. apply list_of_set_spec.
Qed.

(** C1. In a successful run of [mosaic], the paths built from the index
    records are deduplicated with no path lost, and the loading loop opens
    each remaining path once; but when exactly one path remains, lines
    328-329 open it a second time, so that the raster of a lone supertile
    is opened twice. *)
Theorem mosaic_opens (w : World) (dataset : string) (resolution : resolution_arg)
    (bounds : option bounds_arg) (version : option string)
    (d v r layer index_fpath : string) (tiles : list TileRow) (fpaths : list string)
    (log log' : list event) (res : raster) :
  check_dataset_version w dataset version = Ok (d, v) →
  check_resolution resolution = Ok r →
  index_layer d v = Ok layer →
  _get_index_fpath w d v = Ok index_fpath →
  read_file w index_fpath layer (sanitise_bounds w bounds) = Ok tiles →
  tile_fpaths tiles d v r = Ok fpaths →
  mosaic w dataset resolution bounds version log = (Ok res, log') →
  NoDup (unique_fpaths w fpaths)
  ∧ (∀ fpath, fpath ∈ unique_fpaths w fpaths ↔ fpath ∈ fpaths)
  ∧ log' = (log ++ [ReadIndex index_fpath layer]
                ++ (OpenRaster <$> unique_fpaths w fpaths)
                ++ match unique_fpaths w fpaths with
                   | [fpath] => [OpenRaster fpath]
                   | _ => []
                   end)%list.
Proof.
  intros Hdv Hr Hl Hf Hread Hp Hrun.
  destruct (unique_fpaths_spec w fpaths) as [Hnd Hin].
  split; [exact Hnd | split; [exact Hin|]].
  rewrite (mosaic_validated w _ _ _ _ d v r layer index_fpath) in Hrun by assumption.
  rewrite Hread, bind_lift_ok in Hrun.
  apply mosaic_tiles_ok in Hrun as (fpaths' & dem & Hp' & _ & _ & ->).
  rewrite Hp in Hp'. injection Hp' as <-.
  rewrite <- app_assoc. reflexivity.
Qed.

(** Two tiles of one supertile at 10 m: one path after deduplication,
    opened twice. *)
Lemma mosaic_opens_witness :
  run (mosaic TestWorld.world "rema" (ResStr "10m") (Some TestWorld.aoi) None)
  = (Ok {| dims := [("band", 1%nat); ("y", 2%nat); ("x", 2%nat)];
           data := [TestWorld.v1; NAN; TestWorld.v2; TestWorld.v1] |},
     [ReadIndex TestWorld.rema_index_fpath "REMA_Mosaic_Index_v2_2m";
      OpenRaster TestWorld.supertile_10m_fpath;
      OpenRaster TestWorld.supertile_10m_fpath])
  ∧ [ReadIndex TestWorld.rema_index_fpath "REMA_Mosaic_Index_v2_2m";
     OpenRaster TestWorld.supertile_10m_fpath;
     OpenRaster TestWorld.supertile_10m_fpath]
    = ([] ++ [ReadIndex TestWorld.rema_index_fpath "REMA_Mosaic_Index_v2_2m"]
          ++ (OpenRaster <$> unique_fpaths TestWorld.world [TestWorld.supertile_10m_fpath;
                                            TestWorld.supertile_10m_fpath])
          ++ match unique_fpaths TestWorld.world [TestWorld.supertile_10m_fpath;
                                  TestWorld.supertile_10m_fpath] with
             | [fpath] => [OpenRaster fpath]
             | _ => []
             end)%list.
Proof.
  assert (Hrun :
    mosaic TestWorld.world "rema" (ResStr "10m") (Some TestWorld.aoi) None []
    = (Ok {| dims := [("band", 1%nat); ("y", 2%nat); ("x", 2%nat)];
             data := [TestWorld.v1; NAN; TestWorld.v2; TestWorld.v1] |},
       [ReadIndex TestWorld.rema_index_fpath "REMA_Mosaic_Index_v2_2m";
        OpenRaster TestWorld.supertile_10m_fpath;
        OpenRaster TestWorld.supertile_10m_fpath]))
    by (vm_compute; reflexivity).
  split; [exact Hrun|].
  exact (proj2 (proj2
    (mosaic_opens TestWorld.world "rema" (ResStr "10m") (Some TestWorld.aoi) None
       "rema" "v2.0" "10m" "REMA_Mosaic_Index_v2_2m" TestWorld.rema_index_fpath
       [ {| tile := "40_09_1_1"; supertile := "40_09" |};
         {| tile := "40_09_2_1"; supertile := "40_09" |} ]
       [TestWorld.supertile_10m_fpath; TestWorld.supertile_10m_fpath]
       [] _ _
       eq_refl eq_refl eq_refl eq_refl eq_refl eq_refl Hrun))).
Defined.

(** ** Rasters returned by the strip loaders and by [mosaic] *)
Section Loaders.

Variable w : World.

Lemma preview_inv (row : search_row) (bounds : option bounds_arg)
    (log log' : list event) (r : raster) :
  preview w row bounds log = (Ok r, log') →
  ∃ json_url c,
    row_json_url row = Ok json_url
    ∧ strip_sources w (PyStr.replace ".json" "_dem_10m_shade_masked.tif" json_url)
        (sanitise_bounds w bounds) None c None
    ∧ r = where_ (strip_result w c None) (raster_gt (strip_result w c None) ZERO)
    ∧ log' = (log ++ [OpenRaster
                        (PyStr.replace ".json" "_dem_10m_shade_masked.tif" json_url)])%list.
Proof.
  unfold preview.
  destruct (row_json_url row) as [json_url|e]; [|discriminate].
  rewrite bind_lift_ok. unfold io_bind.
  destruct (from_fpath w _ bounds None log) as [[p|e] log1] eqn:Hf; [|discriminate].
  apply from_fpath_inv in Hf as (c & mask & Hs & -> & ->).
  assert (mask = None) as -> by (destruct Hs as [_ Hm]; now destruct mask).
  intros [= <- <-]. exists json_url, c. auto.
Qed.

Lemma from_search_inv (row : search_row) (bounds : option bounds_arg) (bitmask : bool)
    (log log' : list event) (r : raster) :
  from_search w row bounds bitmask log = (Ok r, log') →
  ∃ json_url c mask,
    row_json_url row = Ok json_url
    ∧ strip_sources w (PyStr.replace ".json" "_dem.tif" json_url)
        (sanitise_bounds w bounds)
        (if bitmask then Some (PyStr.replace ".json" "_bitmask.tif" json_url) else None)
        c mask
    ∧ r = strip_result w c mask.
Proof.
  unfold from_search.
  destruct (row_json_url row) as [json_url|e]; [|discriminate].
  rewrite bind_lift_ok. intros Hf.
  apply from_fpath_inv in Hf as (c & mask & Hs & -> & _). eauto 10.
Qed.

Lemma from_id_inv (dataset geocell dem_id : string) (bounds : option bounds_arg)
    (bitmask : bool) (bucket version : string) (preview : bool)
    (log log' : list event) (r : raster) :
  from_id w dataset geocell dem_id bounds bitmask bucket version preview log
  = (Ok (Strip r), log') →
  ∃ c mask,
    strip_sources w
      (OsPath.join bucket
         [PyStr.lower dataset; "strips"; version; "2m"; PyStr.lower geocell;
          dem_id +:+ "_dem.tif"])
      (sanitise_bounds w bounds)
      (if bitmask
       then Some (OsPath.join bucket
                    [PyStr.lower dataset; "strips"; version; "2m"; PyStr.lower geocell;
                     dem_id +:+ "_bitmask.tif"])
       else None)
      c mask
    ∧ r = strip_result w c mask.
Proof.
  unfold from_id. destruct preview; [discriminate|].
  unfold io_bind.
  destruct (from_fpath w _ bounds _ log) as [[p|e] log1] eqn:Hf; [|discriminate].
  apply from_fpath_inv in Hf as (c & mask & Hs & -> & _).
  intros [= <- <-]. eauto.
Qed.

(** The strip loaders return rasters without a dimension of size 1. *)
Lemma strip_loaders_squeezed :
  (∀ dem_fpath bounds bitmask_fpath log log' r,
      from_fpath w dem_fpath bounds bitmask_fpath log = (Ok r, log') →
      ∀ d, d ∈ dims r → snd d ≠ 1%nat)
  ∧ (∀ row bounds log log' r,
        preview w row bounds log = (Ok r, log') →
        ∀ d, d ∈ dims r → snd d ≠ 1%nat)
  ∧ (∀ row bounds bitmask log log' r,
        from_search w row bounds bitmask log = (Ok r, log') →
        ∀ d, d ∈ dims r → snd d ≠ 1%nat)
  ∧ (∀ dataset geocell dem_id bounds bitmask bucket version preview log log' r,
        from_id w dataset geocell dem_id bounds bitmask bucket version preview log
        = (Ok (Strip r), log') →
        ∀ d, d ∈ dims r → snd d ≠ 1%nat).
Proof.
  split; [|split; [|split]].
  - intros ? ? ? ? ? ? H. apply from_fpath_inv in H as (c & mask & _ & -> & _).
    intros d. apply squeeze_no_singleton.
  - intros ? ? ? ? ? H. apply preview_inv in H as (u & c & _ & _ & -> & _).
    intros d. apply squeeze_no_singleton.
  - intros ? ? ? ? ? ? H. apply from_search_inv in H as (u & c & mask & _ & _ & ->).
    intros d. apply squeeze_no_singleton.
  - intros ? ? ? ? ? ? ? ? ? ? ? H. apply from_id_inv in H as (c & mask & _ & ->).
    intros d. apply squeeze_no_singleton.
Qed.

Lemma mosaic_assembled (dataset : string) (resolution : resolution_arg)
    (bounds : option bounds_arg) (version : option string)
    (log log' : list event) (res : raster) :
  mosaic w dataset resolution bounds version log = (Ok res, log') →
  ∃ fpaths dem,
    assembled w (sanitise_bounds w bounds) fpaths dem
    ∧ res = where_ dem (raster_gt dem NODATA).
Proof.
  intros H.
  apply mosaic_ok in H as (d & v & r & layer & index_fpath & tiles & _ & _ & _ & _ & _ & H).
  apply mosaic_tiles_ok in H as (fpaths & dem & _ & Ha & -> & _).
  eauto.
Qed.

End Loaders.

(** C2. A raster returned by [mosaic] has exactly the dimensions of the
    raster that came out of [clip_box] (one tile) or [merge_arrays]
    (several): nothing is squeezed, and a band dimension of size 1 is
    still there in the result. *)
Theorem mosaic_keeps_band_dimension (w : World) (dataset : string)
    (resolution : resolution_arg) (bounds : option bounds_arg) (version : option string)
    (log log' : list event) (res : raster) :
  mosaic w dataset resolution bounds version log = (Ok res, log') →
  ∃ fpaths dem,
    assembled w (sanitise_bounds w bounds) fpaths dem
    ∧ dims res = dims dem
    ∧ (("band", 1%nat) ∈ dims dem → ("band", 1%nat) ∈ dims res).
Proof.
  intros H. apply mosaic_assembled in H as (fpaths & dem & Ha & ->).
  exists fpaths, dem. split; [exact Ha | split; [reflexivity | trivial]].
Qed.

(** The 10 m mosaic of the small world comes back with its band
    dimension. *)
Lemma mosaic_keeps_band_dimension_witness :
  run (mosaic TestWorld.world "rema" (ResStr "10m") (Some TestWorld.aoi) None)
  = (Ok {| dims := [("band", 1%nat); ("y", 2%nat); ("x", 2%nat)];
           data := [TestWorld.v1; NAN; TestWorld.v2; TestWorld.v1] |},
     [ReadIndex TestWorld.rema_index_fpath "REMA_Mosaic_Index_v2_2m";
      OpenRaster TestWorld.supertile_10m_fpath;
      OpenRaster TestWorld.supertile_10m_fpath])
  ∧ ∃ fpaths dem,
      assembled TestWorld.world (sanitise_bounds TestWorld.world (Some TestWorld.aoi))
        fpaths dem
      ∧ [("band", 1%nat); ("y", 2%nat); ("x", 2%nat)] = dims dem
      ∧ (("band", 1%nat) ∈ dims dem
         → ("band", 1%nat) ∈ [("band", 1%nat); ("y", 2%nat); ("x", 2%nat)]).
Proof.
  assert (Hrun :
    mosaic TestWorld.world "rema" (ResStr "10m") (Some TestWorld.aoi) None []
    = (Ok {| dims := [("band", 1%nat); ("y", 2%nat); ("x", 2%nat)];
             data := [TestWorld.v1; NAN; TestWorld.v2; TestWorld.v1] |},
       [ReadIndex TestWorld.rema_index_fpath "REMA_Mosaic_Index_v2_2m";
        OpenRaster TestWorld.supertile_10m_fpath;
        OpenRaster TestWorld.supertile_10m_fpath]))
    by (vm_compute; reflexivity).
  split; [exact Hrun|].
  exact (mosaic_keeps_band_dimension TestWorld.world _ _ _ _ _ _ _ Hrun).
Defined.

(** The same file through [from_fpath] comes back without its band
    dimension. *)
Example from_fpath_drops_band :
  run (from_fpath TestWorld.world TestWorld.supertile_10m_fpath (Some TestWorld.aoi) None)
  = (Ok {| dims := [("y", 2%nat); ("x", 2%nat)];
           data := [TestWorld.v1; NAN; TestWorld.v2; TestWorld.v1] |},
     [OpenRaster TestWorld.supertile_10m_fpath]).
Proof. vm_compute. reflexivity. Qed.

(** C3. A raster returned by [from_fpath], [preview], [from_search],
    [from_id] or [mosaic] holds one cell for each cell of the raster it
    was made from (the strip as opened and clipped, on the grid it shares
    with the bitmask when there is one; for [mosaic] the tile cut to the
    bounds, or the merged tiles): no cell of the result equals
    [-9999.0], every cell of the result is the cell of that raster or
    NaN, and every cell that holds [-9999.0] in that raster is NaN in the
    result. *)
Theorem loaded_rasters_nodata_filtered (w : World) :
  (∀ dem_fpath bounds bitmask_fpath log log' r,
      from_fpath w dem_fpath bounds bitmask_fpath log = (Ok r, log') →
      ∃ c mask,
        strip_sources w dem_fpath (sanitise_bounds w bounds) bitmask_fpath c mask
        ∧ filtered_from c (strip_positions w c mask) r)
  ∧ (∀ row bounds log log' r,
        preview w row bounds log = (Ok r, log') →
        ∃ json_url c,
          row_json_url row = Ok json_url
          ∧ strip_sources w (PyStr.replace ".json" "_dem_10m_shade_masked.tif" json_url)
              (sanitise_bounds w bounds) None c None
          ∧ filtered_from c (all_positions c) r)
  ∧ (∀ row bounds bitmask log log' r,
        from_search w row bounds bitmask log = (Ok r, log') →
        ∃ json_url c mask,
          row_json_url row = Ok json_url
          ∧ strip_sources w (PyStr.replace ".json" "_dem.tif" json_url)
              (sanitise_bounds w bounds)
              (if bitmask
               then Some (PyStr.replace ".json" "_bitmask.tif" json_url) else None)
              c mask
          ∧ filtered_from c (strip_positions w c mask) r)
  ∧ (∀ dataset geocell dem_id bounds bitmask bucket version preview log log' r,
        from_id w dataset geocell dem_id bounds bitmask bucket version preview log
        = (Ok (Strip r), log') →
        ∃ c mask,
          strip_sources w
            (OsPath.join bucket
               [PyStr.lower dataset; "strips"; version; "2m"; PyStr.lower geocell;
                dem_id +:+ "_dem.tif"])
            (sanitise_bounds w bounds)
            (if bitmask
             then Some (OsPath.join bucket
                          [PyStr.lower dataset; "strips"; version; "2m";
                           PyStr.lower geocell; dem_id +:+ "_bitmask.tif"])
             else None)
            c mask
          ∧ filtered_from c (strip_positions w c mask) r)
  ∧ (∀ dataset resolution bounds version log log' r,
        mosaic w dataset resolution bounds version log = (Ok r, log') →
        ∃ fpaths dem,
          assembled w (sanitise_bounds w bounds) fpaths dem
          ∧ filtered_from dem (all_positions dem) r).
Proof.
  split; [|split; [|split; [|split]]].
  - intros ? ? ? ? ? ? H. apply from_fpath_inv in H as (c & mask & Hs & -> & _).
    exists c, mask. split; [exact Hs | apply strip_result_filtered].
  - intros ? ? ? ? ? H. apply preview_inv in H as (u & c & Hu & Hs & -> & _).
    exists u, c. split; [exact Hu | split; [exact Hs|]].
    apply filtered_from_where_gt. exact (strip_result_filtered w c None).
  - intros ? ? ? ? ? ? H. apply from_search_inv in H as (u & c & mask & Hu & Hs & ->).
    exists u, c, mask. split; [exact Hu | split; [exact Hs|]].
    apply strip_result_filtered.
  - intros ? ? ? ? ? ? ? ? ? ? ? H. apply from_id_inv in H as (c & mask & Hs & ->).
    exists c, mask. split; [exact Hs | apply strip_result_filtered].
  - intros ? ? ? ? ? ? ? H. apply mosaic_assembled in H as (fpaths & dem & Ha & ->).
    exists fpaths, dem. split; [exact Ha | apply where_gt_filtered].
Qed.

(** A strip with its bitmask from a search row, and a mosaic, in the small world:
    the cell that holds [-9999.0] in the file is NaN in both results, and
    each result has its four cells. *)
Lemma loaded_rasters_nodata_filtered_witness :
  (∃ json_url c mask,
      row_json_url (SearchRecord "https://stac/#/external/host/strips/n70w051/id.json")
      = Ok json_url
      ∧ strip_sources TestWorld.world (PyStr.replace ".json" "_dem.tif" json_url)
          (sanitise_bounds TestWorld.world (Some TestWorld.aoi))
          (Some (PyStr.replace ".json" "_bitmask.tif" json_url)) c mask
      ∧ filtered_from c (strip_positions TestWorld.world c mask)
          {| dims := [("y", 2%nat); ("x", 2%nat)];
             data := [TestWorld.v1; NAN; TestWorld.v2; NAN] |})
  ∧ (∃ fpaths dem,
        assembled TestWorld.world (sanitise_bounds TestWorld.world (Some TestWorld.aoi))
          fpaths dem
        ∧ filtered_from dem (all_positions dem)
            {| dims := [("band", 1%nat); ("y", 2%nat); ("x", 2%nat)];
               data := [TestWorld.v1; NAN; TestWorld.v2; TestWorld.v1] |}).
Proof.
  pose proof (loaded_rasters_nodata_filtered TestWorld.world) as (_ & _ & Hfs & _ & Hm).
  split.
  - exact (Hfs (SearchRecord "https://stac/#/external/host/strips/n70w051/id.json")
             (Some TestWorld.aoi) true []
             [OpenRaster "http://host/strips/n70w051/id_dem.tif";
              OpenRaster "http://host/strips/n70w051/id_bitmask.tif"]
             {| dims := [("y", 2%nat); ("x", 2%nat)];
                data := [TestWorld.v1; NAN; TestWorld.v2; NAN] |}
             ltac:(vm_compute; reflexivity)).
  - exact (Hm "rema" (ResStr "10m") (Some TestWorld.aoi) None []
             [ReadIndex TestWorld.rema_index_fpath "REMA_Mosaic_Index_v2_2m";
              OpenRaster TestWorld.supertile_10m_fpath;
              OpenRaster TestWorld.supertile_10m_fpath]
             {| dims := [("band", 1%nat); ("y", 2%nat); ("x", 2%nat)];
                data := [TestWorld.v1; NAN; TestWorld.v2; TestWorld.v1] |}
             ltac:(vm_compute; reflexivity)).
Defined.

(** * Further properties of the loaders *)

(** ** [from_fpath] *)

(** When the files open and clip, [from_fpath] returns. *)
Lemma from_fpath_run (w : World) (dem_fpath : string) (bounds : option bounds_arg)
    (bitmask_fpath : option string) (log : list event) (c : raster)
    (mask : option raster) :
  strip_sources w dem_fpath (sanitise_bounds w bounds) bitmask_fpath c mask →
  from_fpath w dem_fpath bounds bitmask_fpath log
  = (Ok (strip_result w c mask), (log ++ strip_events dem_fpath bitmask_fpath)%list).
Proof.
  intros [(dem0 & Hopen & Hclip) Hmask].
  unfold from_fpath, open_raster, io_bind, io_emit, io_lift, io_ret.
  rewrite Hopen.
  destruct (sanitise_bounds w bounds) as [b|]; cbn [effective_bounds] in Hmask.
  - rewrite Hclip. cbn [fst snd].
    destruct bitmask_fpath as [m|], mask as [mk|]; try contradiction.
    + destruct Hmask as (mk0 & -> & ->). cbn. now rewrite <- app_assoc.
    + reflexivity.
  - subst c. cbn [fst snd].
    destruct bitmask_fpath as [m|], mask as [mk|]; try contradiction.
    + destruct Hmask as (mk0 & -> & ->). cbn. now rewrite <- app_assoc.
    + reflexivity.
Qed.

(** X1. [from_fpath] returns a raster exactly when the DEM opens and
    clips and, if a bitmask is asked for, the bitmask opens and clips. It
    then has opened the DEM once, the bitmask once after it, and nothing
    else; the bitmask is clipped to the bounds given, or to the extent of
    the DEM ([rio.bounds()]) when no bounds were given. *)
Theorem from_fpath_returns_iff (w : World) (dem_fpath : string)
    (bounds : option bounds_arg) (bitmask_fpath : option string)
    (log log' : list event) (r : raster) :
  from_fpath w dem_fpath bounds bitmask_fpath log = (Ok r, log')
  ↔ ∃ c mask,
      strip_source w dem_fpath (sanitise_bounds w bounds) c
      ∧ match bitmask_fpath, mask with
        | Some m, Some mk =>
            strip_source w m
              (Some match sanitise_bounds w bounds with
                    | Some b => b
                    | None => rio_bounds w c
                    end) mk
        | None, None => True
        | _, _ => False
        end
      ∧ r = strip_result w c mask
      ∧ log' = (log ++ OpenRaster dem_fpath ::
                       match bitmask_fpath with
                       | Some m => [OpenRaster m]
                       | None => []
                       end)%list.
Proof.
  split.
  - intros H. apply from_fpath_inv in H as (c & mask & [Hc Hm] & Hr & Hl).
    exists c, mask. auto.
  - intros (c & mask & Hc & Hm & -> & ->). now apply from_fpath_run.
Qed.

(** A DEM with a bitmask, without bounds, in the small world. *)
Lemma from_fpath_returns_iff_witness :
  ∃ c mask,
    strip_source TestWorld.world "strip_dem.tif" None c
    ∧ strip_source TestWorld.world "strip_bitmask.tif"
        (Some (rio_bounds TestWorld.world c)) mask
    ∧ {| dims := [("y", 2%nat); ("x", 2%nat)];
         data := [TestWorld.v1; NAN; TestWorld.v2; NAN] |}
      = strip_result TestWorld.world c (Some mask)
    ∧ [OpenRaster "strip_dem.tif"; OpenRaster "strip_bitmask.tif"]
      = ([] ++ [OpenRaster "strip_dem.tif"; OpenRaster "strip_bitmask.tif"])%list.
Proof.
  destruct (proj1 (from_fpath_returns_iff TestWorld.world "strip_dem.tif" None
                     (Some "strip_bitmask.tif") []
                     [OpenRaster "strip_dem.tif"; OpenRaster "strip_bitmask.tif"]
                     {| dims := [("y", 2%nat); ("x", 2%nat)];
                        data := [TestWorld.v1; NAN; TestWorld.v2; NAN] |})
              ltac:(vm_compute; reflexivity))
    as (c & [mask|] & Hc & Hm & Hr & Hl); [|contradiction].
  exists c, mask. auto.
Defined.

(** X2. With a bitmask, [from_fpath] lays the clipped DEM and the clipped
    bitmask on the grid they share (xarray aligns the two on their
    coordinates): for each cell of that grid, the result keeps the DEM
    value exactly when the bitmask is zero there and the DEM value is
    above [-9999.0], and holds NaN otherwise. Its dimensions are those of
    the shared grid without the ones of size 1. *)
Theorem from_fpath_bitmask_cells (w : World) (dem_fpath : string)
    (bounds : option bounds_arg) (m : string) (log log' : list event) (r : raster) :
  from_fpath w dem_fpath bounds (Some m) log = (Ok r, log') →
  ∃ c mk,
    strip_source w dem_fpath (sanitise_bounds w bounds) c
    ∧ strip_source w m (Some (effective_bounds w (sanitise_bounds w bounds) c)) mk
    ∧ data r
      = map (λ ij, match data c !! fst ij, data mk !! snd ij with
                   | Some x, Some b =>
                       if (SFeqb b ZERO && SFltb NODATA x)%bool then x else NAN
                   | _, _ => NAN
                   end)
          (snd (align w (where_ c (raster_gt c NODATA)) mk))
    ∧ dims r
      = filter (λ d, snd d ≠ 1%nat) (fst (align w (where_ c (raster_gt c NODATA)) mk)).
Proof.
  intros H. apply from_fpath_inv in H as (c & [mk|] & [Hc Hm] & -> & _);
    [|contradiction].
  exists c, mk. split; [exact Hc | split; [exact Hm | split; [|reflexivity]]].
  unfold strip_result, squeeze, where_mask. cbn [data].
  apply map_ext. intros [i j]. unfold mask_cell. cbn [fst snd].
  rewrite where_gt_cells.
  change (map ?f ?l) with (f <$> l). rewrite list_lookup_fmap.
  destruct (data c !! i) as [x|]; cbn [fmap option_fmap option_map]; [|reflexivity].
  destruct (data mk !! j) as [b|]; [|reflexivity].
  destruct (SFeqb b ZERO), (SFltb NODATA x); reflexivity.
Qed.

Lemma from_fpath_bitmask_cells_witness :
  ∃ c mk,
    strip_source TestWorld.world "strip_dem.tif"
      (sanitise_bounds TestWorld.world (Some TestWorld.aoi)) c
    ∧ strip_source TestWorld.world "strip_bitmask.tif"
        (Some (effective_bounds TestWorld.world
                 (sanitise_bounds TestWorld.world (Some TestWorld.aoi)) c)) mk
    ∧ [TestWorld.v1; NAN; TestWorld.v2; NAN]
      = map (λ ij, match data c !! fst ij, data mk !! snd ij with
                   | Some x, Some b =>
                       if (SFeqb b ZERO && SFltb NODATA x)%bool then x else NAN
                   | _, _ => NAN
                   end)
          (snd (align TestWorld.world (where_ c (raster_gt c NODATA)) mk))
    ∧ [("y", 2%nat); ("x", 2%nat)]
      = filter (λ d, snd d ≠ 1%nat)
          (fst (align TestWorld.world (where_ c (raster_gt c NODATA)) mk)).
Proof.
  exact (from_fpath_bitmask_cells TestWorld.world "strip_dem.tif" (Some TestWorld.aoi)
           "strip_bitmask.tif" []
           [OpenRaster "strip_dem.tif"; OpenRaster "strip_bitmask.tif"]
           {| dims := [("y", 2%nat); ("x", 2%nat)];
              data := [TestWorld.v1; NAN; TestWorld.v2; NAN] |}
           ltac:(vm_compute; reflexivity)).
Defined.

(** A value above zero is above [-9999.0]. *)
Lemma positive_above_nodata (x : spec_float) :
  SFltb ZERO x = true → SFltb NODATA x = true.
Proof. destruct x as [s|s| |s m e]; try destruct s; cbn; congruence. Qed.

(** X3. [preview] opens one file, the 10 m hillshade derived from the
    row, and never a bitmask; in the raster it returns a cell of the
    clipped hillshade is kept exactly when it is above zero, and every
    other cell (zero, negative, NaN) is NaN. *)
Theorem preview_positive_only (w : World) (row : search_row)
    (bounds : option bounds_arg) (log log' : list event) (r : raster) :
  preview w row bounds log = (Ok r, log') →
  ∃ json_url c,
    row_json_url row = Ok json_url
    ∧ strip_source w (PyStr.replace ".json" "_dem_10m_shade_masked.tif" json_url)
        (sanitise_bounds w bounds) c
    ∧ data r = map (λ x, if SFltb ZERO x then x else NAN) (data c)
    ∧ dims r = filter (λ d, snd d ≠ 1%nat) (dims c)
    ∧ log' = (log ++ [OpenRaster
                        (PyStr.replace ".json" "_dem_10m_shade_masked.tif" json_url)])%list.
Proof.
  intros H. apply preview_inv in H as (json_url & c & Hu & [Hc _] & -> & ->).
  exists json_url, c.
  split; [exact Hu | split; [exact Hc | split; [|split; reflexivity]]].
  cbv [where_ raster_gt strip_result squeeze data].
  rewrite !where_gt_data, map_map. apply map_ext. intros x.
  destruct (SFltb NODATA x) eqn:Hn; [reflexivity|].
  destruct (SFltb ZERO x) eqn:Hz; [|reflexivity].
  apply positive_above_nodata in Hz. congruence.
Qed.

Lemma preview_positive_only_witness :
  ∃ json_url c,
    row_json_url (SearchRecord "https://stac/#/external/host/strips/n70w051/id.json")
    = Ok json_url
    ∧ strip_source TestWorld.world
        (PyStr.replace ".json" "_dem_10m_shade_masked.tif" json_url)
        (sanitise_bounds TestWorld.world None) c
    ∧ [TestWorld.v1; NAN; TestWorld.v2; TestWorld.v1]
      = map (λ x, if SFltb ZERO x then x else NAN) (data c)
    ∧ [("y", 2%nat); ("x", 2%nat)] = filter (λ d, snd d ≠ 1%nat) (dims c)
    ∧ [OpenRaster "http://host/strips/n70w051/id_dem_10m_shade_masked.tif"]
      = ([] ++ [OpenRaster
                  (PyStr.replace ".json" "_dem_10m_shade_masked.tif" json_url)])%list.
Proof.
  exact (preview_positive_only TestWorld.world
           (SearchRecord "https://stac/#/external/host/strips/n70w051/id.json") None []
           [OpenRaster "http://host/strips/n70w051/id_dem_10m_shade_masked.tif"]
           {| dims := [("y", 2%nat); ("x", 2%nat)];
              data := [TestWorld.v1; NAN; TestWorld.v2; TestWorld.v1] |}
           ltac:(vm_compute; reflexivity)).
Defined.

(** X4. [from_fpath] raises nothing of its own: an exception it ends
    with is the one [open_rasterio] or [clip] raised, unchanged. When the
    DEM fails to open or to clip, the bitmask has not been opened. *)
Theorem from_fpath_raises (w : World) (dem_fpath : string)
    (bounds : option bounds_arg) (bitmask_fpath : option string)
    (log log' : list event) (e : exn) :
  from_fpath w dem_fpath bounds bitmask_fpath log = (Raise e, log') →
  (log' = (log ++ [OpenRaster dem_fpath])%list
   ∧ (open_rasterio w dem_fpath = Raise e
      ∨ ∃ dem0 b, open_rasterio w dem_fpath = Ok dem0
                  ∧ sanitise_bounds w bounds = Some b
                  ∧ clip w dem0 b = Raise e))
  ∨ (∃ m, bitmask_fpath = Some m
          ∧ log' = (log ++ [OpenRaster dem_fpath; OpenRaster m])%list
          ∧ (open_rasterio w m = Raise e
             ∨ ∃ mk b, open_rasterio w m = Ok mk ∧ clip w mk b = Raise e)).
Proof.
  unfold from_fpath, open_raster, io_bind, io_emit, io_lift, io_ret.
  intros H. repeat case_match; simplify_eq; cbn [fst snd] in *.
  all: try match goal with H : Some _ = Some _ |- _ => injection H as <- end.
  all: try (left; split; [reflexivity|]; eauto 10; fail).
  all: right; eexists; split; [reflexivity|]; rewrite <- app_assoc;
    (split; [reflexivity|]); eauto 10.
Qed.

(** A world where nothing can be opened. *)
Lemma from_fpath_raises_witness :
  [OpenRaster "missing.txt"] = ([] ++ [OpenRaster "missing.txt"])%list
  ∧ (open_rasterio TestWorld.world "missing.txt"
     = Raise (LibraryError "not recognized as a supported file format")
     ∨ ∃ dem0 b, open_rasterio TestWorld.world "missing.txt" = Ok dem0
                 ∧ sanitise_bounds TestWorld.world None = Some b
                 ∧ clip TestWorld.world dem0 b
                   = Raise (LibraryError "not recognized as a supported file format")).
Proof.
  destruct (from_fpath_raises TestWorld.world "missing.txt" None (Some "mask.tif") []
              [OpenRaster "missing.txt"]
              (LibraryError "not recognized as a supported file format")
              ltac:(vm_compute; reflexivity))
    as [[_ H] | (m & _ & Hl & _)].
  - split; [reflexivity | exact H].
  - discriminate Hl.
Defined.

(** ** [str.split] and [str.replace] *)

Lemma rev_app_rev_app (s a b : string) :
  String.rev_app (String.rev_app s a) b = String.rev_app a (s +:+ b).
Proof.
  revert a b. induction s as [|c s IH]; intros a b; [reflexivity|].
  cbn [String.rev_app]. now rewrite IH.
Qed.

Lemma rev_rev_app (s : string) : String.rev (String.rev_app s "") = s.
Proof.
  unfold String.rev. rewrite rev_app_rev_app. cbn [String.rev_app].
  apply append_nil_r.
Qed.

Lemma prefix_nil (s : string) : String.prefix "" s = true.
Proof. now destruct s. Qed.

Lemma prefix_append (sep rest : string) : String.prefix sep (sep +:+ rest) = true.
Proof.
  induction sep as [|a t IH]; [apply prefix_nil|].
  rewrite append_cons. cbn [String.prefix].
  now destruct (ascii_dec a a).
Qed.

Lemma split_go_skip (sep t s cur : string) :
  PyStr.split_go sep (t +:+ s) cur (String.length t) = PyStr.split_go sep s cur O.
Proof.
  induction t as [|c t IH]; [reflexivity|].
  rewrite append_cons. exact IH.
Qed.

Lemma split_go_no_match (sep pre rest cur : string) :
  no_match_within sep pre rest = true →
  PyStr.split_go sep (pre +:+ rest) cur O
  = PyStr.split_go sep rest (String.rev_app pre cur) O.
Proof.
  revert cur. induction pre as [|c p IH]; intros cur H; [reflexivity|].
  cbn [no_match_within] in H. apply andb_true_iff in H as [Hp Hrest].
  apply negb_true_iff in Hp. rewrite append_cons in *.
  cbn [PyStr.split_go]. rewrite Hp. now rewrite IH.
Qed.

Lemma split_go_match (a : ascii) (t rest cur : string) :
  PyStr.split_go (String a t) (String a t +:+ rest) cur O
  = String.rev cur :: PyStr.split_go (String a t) rest "" O.
Proof.
  pose proof (prefix_append (String a t) rest) as Hp.
  rewrite append_cons in *. cbn [PyStr.split_go]. rewrite Hp.
  f_equal.
  replace (String.length (String a t) - 1)%nat with (String.length t)
    by (cbn [String.length]; lia).
  apply split_go_skip.
Qed.

Lemma split_go_none (sep s cur : string) :
  PyStr.contains sep s = false →
  PyStr.split_go sep s cur O = [String.rev (String.rev_app s cur)].
Proof.
  revert cur. induction s as [|c s IH]; intros cur H; [reflexivity|].
  cbn [PyStr.contains] in H.
  destruct (String.prefix sep (String c s)) eqn:Hp; [discriminate|].
  cbn [PyStr.split_go]. rewrite Hp. now rewrite IH.
Qed.

(** [s.split(sep)] when [sep] occurs once in [s]. *)
Lemma split_once (a : ascii) (t pre rest : string) :
  no_match_within (String a t) pre (String a t +:+ rest) = true →
  PyStr.contains (String a t) rest = false →
  PyStr.split (String a t) (pre +:+ String a t +:+ rest) = [pre; rest].
Proof.
  intros Hpre Hrest. unfold PyStr.split.
  rewrite split_go_no_match by exact Hpre.
  rewrite split_go_match, split_go_none by exact Hrest.
  now rewrite !rev_rev_app.
Qed.

Lemma replace_go_skip (old new t s : string) :
  PyStr.replace_go old new (t +:+ s) (String.length t) = PyStr.replace_go old new s O.
Proof.
  induction t as [|c t IH]; [reflexivity|].
  rewrite append_cons. exact IH.
Qed.

Lemma replace_go_no_match (old new u rest : string) :
  no_match_within old u rest = true →
  PyStr.replace_go old new (u +:+ rest) O = u +:+ PyStr.replace_go old new rest O.
Proof.
  induction u as [|c u IH]; intros H; [reflexivity|].
  cbn [no_match_within] in H. apply andb_true_iff in H as [Hp Hrest].
  apply negb_true_iff in Hp. rewrite !append_cons in *.
  cbn [PyStr.replace_go]. rewrite Hp. now rewrite IH.
Qed.

(** [s.replace(old, new)] when [old] occurs once in [s], at its end. *)
Lemma replace_at_end (a : ascii) (t new u : string) :
  no_match_within (String a t) u (String a t) = true →
  PyStr.replace (String a t) new (u +:+ String a t) = u +:+ new.
Proof.
  intros H. unfold PyStr.replace. rewrite replace_go_no_match by exact H.
  f_equal.
  pose proof (prefix_append (String a t) "") as Hp. rewrite append_nil_r in Hp.
  cbn [PyStr.replace_go]. rewrite Hp.
  replace (String.length (String a t) - 1)%nat with (String.length t)
    by (cbn [String.length]; lia).
  pose proof (replace_go_skip (String a t) new t "") as Hs.
  rewrite append_nil_r in Hs. rewrite Hs. cbn [PyStr.replace_go].
  apply append_nil_r.
Qed.

(** ** URLs derived from a search row *)

Lemma row_json_url_external (pre body : string) :
  no_match_within "/external/" pre ("/external/" +:+ body +:+ ".json") = true →
  PyStr.contains "/external/" (body +:+ ".json") = false →
  row_json_url (SearchRecord (pre +:+ "/external/" +:+ body +:+ ".json"))
  = Ok ("http://" +:+ body +:+ ".json").
Proof.
  intros Hpre Hbody. unfold row_json_url.
  now rewrite (split_once "/" "external/" pre (body +:+ ".json") Hpre Hbody).
Qed.

Lemma json_url_replace (body new : string) :
  no_match_within ".json" ("http://" +:+ body) ".json" = true →
  PyStr.replace ".json" new ("http://" +:+ body +:+ ".json") = "http://" +:+ body +:+ new.
Proof.
  intros H. rewrite <- (append_assoc "http://" body ".json").
  rewrite (replace_at_end "." "json" new _ H). apply append_assoc.
Qed.

Lemma bind_lift_ok_fun {A B} (a : A) (k : A → IO B) :
  io_bind (io_lift (Ok a)) k = k a.
Proof. reflexivity. Qed.

(** X5. For a row whose [s3url] reads [pre/external/body.json], with
    [/external/] and [.json] occurring nowhere else, [from_search] loads
    [http://body_dem.tif] (with [http://body_bitmask.tif] as bitmask when
    asked) and [preview] loads [http://body_dem_10m_shade_masked.tif]:
    what precedes [/external/] is dropped and the scheme is always
    [http]. A frame is read through its first row. *)
Theorem search_row_urls (w : World) (pre body : string) (others : list string)
    (bounds : option bounds_arg) (bitmask : bool) :
  no_match_within "/external/" pre ("/external/" +:+ body +:+ ".json") = true →
  PyStr.contains "/external/" (body +:+ ".json") = false →
  no_match_within ".json" ("http://" +:+ body) ".json" = true →
  from_search w (SearchRecord (pre +:+ "/external/" +:+ body +:+ ".json")) bounds bitmask
  = from_fpath w ("http://" +:+ body +:+ "_dem.tif") bounds
      (if bitmask then Some ("http://" +:+ body +:+ "_bitmask.tif") else None)
  ∧ preview w (SearchRecord (pre +:+ "/external/" +:+ body +:+ ".json")) bounds
    = (p <- from_fpath w ("http://" +:+ body +:+ "_dem_10m_shade_masked.tif") bounds None ;;
       io_ret (where_ p (raster_gt p ZERO)))
  ∧ from_search w (SearchFrame ((pre +:+ "/external/" +:+ body +:+ ".json") :: others))
      bounds bitmask
    = from_search w (SearchRecord (pre +:+ "/external/" +:+ body +:+ ".json"))
        bounds bitmask
  ∧ preview w (SearchFrame ((pre +:+ "/external/" +:+ body +:+ ".json") :: others)) bounds
    = preview w (SearchRecord (pre +:+ "/external/" +:+ body +:+ ".json")) bounds.
Proof.
  intros Hpre Hbody Hjson.
  pose proof (row_json_url_external pre body Hpre Hbody) as Hurl.
  split; [|split; [|split; reflexivity]].
  - unfold from_search. rewrite Hurl, bind_lift_ok_fun.
    rewrite !json_url_replace by exact Hjson. reflexivity.
  - unfold preview. rewrite Hurl, bind_lift_ok_fun.
    rewrite !json_url_replace by exact Hjson. reflexivity.
Qed.

(** A STAC browser URL of an ArcticDEM strip. *)
Lemma search_row_urls_witness :
  from_search TestWorld.world
    (SearchRecord "https://polargeospatialcenter.github.io/stac-browser/#/external/pgc-opendata-dems.s3.us-west-2.amazonaws.com/arcticdem/strips/s2s041/2m/n70w051/SETSM_s2s041_WV01_20200709_2m_lsf_seg2.json")
    None true
  = from_fpath TestWorld.world
      "http://pgc-opendata-dems.s3.us-west-2.amazonaws.com/arcticdem/strips/s2s041/2m/n70w051/SETSM_s2s041_WV01_20200709_2m_lsf_seg2_dem.tif"
      None
      (Some "http://pgc-opendata-dems.s3.us-west-2.amazonaws.com/arcticdem/strips/s2s041/2m/n70w051/SETSM_s2s041_WV01_20200709_2m_lsf_seg2_bitmask.tif").
Proof.
  exact (proj1 (search_row_urls TestWorld.world
                  "https://polargeospatialcenter.github.io/stac-browser/#"
                  "pgc-opendata-dems.s3.us-west-2.amazonaws.com/arcticdem/strips/s2s041/2m/n70w051/SETSM_s2s041_WV01_20200709_2m_lsf_seg2"
                  [] None true eq_refl eq_refl eq_refl)).
Defined.

(** X6. A row whose [s3url] does not contain [/external/] makes
    [from_search] and [preview] raise [IndexError] before any file is
    opened, whether it comes alone or as the first row of a frame. *)
Theorem search_row_without_external (w : World) (s3url : string)
    (others : list string) (bounds : option bounds_arg) (bitmask : bool)
    (log : list event) :
  PyStr.contains "/external/" s3url = false →
  from_search w (SearchRecord s3url) bounds bitmask log
  = (Raise (IndexError "list index out of range"), log)
  ∧ preview w (SearchRecord s3url) bounds log
    = (Raise (IndexError "list index out of range"), log)
  ∧ from_search w (SearchFrame (s3url :: others)) bounds bitmask log
    = (Raise (IndexError "list index out of range"), log)
  ∧ preview w (SearchFrame (s3url :: others)) bounds log
    = (Raise (IndexError "list index out of range"), log).
Proof.
  intros H.
  assert (Hr : ∀ row, row = SearchRecord s3url ∨ row = SearchFrame (s3url :: others) →
               row_json_url row = Raise (IndexError "list index out of range")).
  { intros row [-> | ->]; unfold row_json_url, PyStr.split;
      now rewrite (split_go_none _ _ _ H). }
  unfold from_search, preview.
  rewrite !Hr by auto. auto.
Qed.

Lemma search_row_without_external_witness :
  run (from_search TestWorld.world (SearchRecord "s3://bucket/strips/id.json") None true)
  = (Raise (IndexError "list index out of range"), []).
Proof.
  exact (proj1 (search_row_without_external TestWorld.world "s3://bucket/strips/id.json"
                  [] None true [] eq_refl)).
Defined.

(** ** [_aws_link] and the resolution *)

Lemma check_resolution_valid (resolution : resolution_arg) (r : string) :
  check_resolution resolution = Ok r → r ∈ VALID_MOSAIC_RES.
Proof.
  unfold check_resolution.
  destruct (PyStr.In_list _ VALID_MOSAIC_RES) eqn:H; cbn [negb]; [|discriminate].
  intros [= <-]. now apply bool_decide_eq_true in H.
Qed.

Lemma aws_link_ok_iff (row : TileRow) (d v r prefix : string) :
  (∃ fpath, _aws_link row d v r prefix = Ok fpath) ↔ r ∈ VALID_MOSAIC_RES.
Proof.
  unfold _aws_link, VALID_MOSAIC_RES. rewrite !elem_of_cons, elem_of_nil.
  destruct (String.eqb_spec r "2m") as [->|Hn2].
  - split; [auto | eauto].
  - destruct (PyStr.In_list r ["10m"; "32m"]) eqn:Hin.
    + apply bool_decide_eq_true in Hin. rewrite !elem_of_cons, elem_of_nil in Hin.
      split; [tauto | eauto].
    + apply bool_decide_eq_false in Hin. rewrite !elem_of_cons, elem_of_nil in Hin.
      split; [intros [fpath H]; discriminate | tauto].
Qed.

Lemma tile_fpaths_total (tiles : list TileRow) (d v r : string) :
  r ∈ VALID_MOSAIC_RES →
  ∃ fpaths, tile_fpaths tiles d v r = Ok fpaths ∧ length fpaths = length tiles.
Proof.
  intros Hr. induction tiles as [|row rest (fpaths & IH & Hlen)]; cbn [tile_fpaths].
  - now exists [].
  - destruct (proj2 (aws_link_ok_iff row d v r PREFIX) Hr) as [fpath ->].
    rewrite IH. exists (fpath :: fpaths). cbn. auto.
Qed.

(** X7. [_aws_link] returns a path exactly when the resolution is [2m],
    [10m] or [32m], whatever the record, dataset, version and prefix, and
    raises its [ValueError] otherwise. A resolution that passed the check
    of [mosaic] is one of the three, so [mosaic] gets one path for each
    record of the index and never sees that error. *)
Theorem aws_link_resolution (row : TileRow) (d v r prefix : string) :
  ((∃ fpath, _aws_link row d v r prefix = Ok fpath) ↔ r ∈ VALID_MOSAIC_RES)
  ∧ (r ∉ VALID_MOSAIC_RES →
     _aws_link row d v r prefix
     = Raise (ValueError "Input `resolution` must be one of ['2m', '10m', '32m']"))
  ∧ (∀ resolution tiles,
       check_resolution resolution = Ok r →
       ∃ fpaths, tile_fpaths tiles d v r = Ok fpaths ∧ length fpaths = length tiles).
Proof.
  split; [apply aws_link_ok_iff | split].
  - intros Hn. unfold _aws_link, VALID_MOSAIC_RES in *.
    rewrite !elem_of_cons, elem_of_nil in Hn.
    destruct (String.eqb_spec r "2m") as [->|_]; [tauto|].
    destruct (PyStr.In_list r ["10m"; "32m"]) eqn:Hin; [|reflexivity].
    apply bool_decide_eq_true in Hin. rewrite !elem_of_cons, elem_of_nil in Hin. tauto.
  - intros resolution tiles H. apply tile_fpaths_total.
    now apply check_resolution_valid in H.
Qed.

(** [5m] is turned down; at [10m] two records give two paths. *)
Lemma aws_link_resolution_witness :
  _aws_link TestWorld.row_40_09_1_1 "rema" "v2.0" "5m" PREFIX
  = Raise (ValueError "Input `resolution` must be one of ['2m', '10m', '32m']")
  ∧ ∃ fpaths,
      tile_fpaths [TestWorld.row_40_09_1_1; TestWorld.row_40_09_1_1] "rema" "v2.0" "10m"
      = Ok fpaths
      ∧ length fpaths = 2%nat.
Proof.
  split.
  - apply (proj1 (proj2 (aws_link_resolution TestWorld.row_40_09_1_1
                           "rema" "v2.0" "5m" PREFIX))).
    unfold VALID_MOSAIC_RES. rewrite !elem_of_cons, elem_of_nil.
    intros [H | [H | [H | []]]]; discriminate H.
  - exact (proj2 (proj2 (aws_link_resolution TestWorld.row_40_09_1_1
                           "rema" "v2.0" "10m" PREFIX))
             (ResInt 10) [TestWorld.row_40_09_1_1; TestWorld.row_40_09_1_1] eq_refl).
Defined.

(** ** [mosaic] without bounds *)


Lemma unique_fpaths_nil (w : World) : unique_fpaths w [] = [].
Proof.
  apply elem_of_nil_inv. intros x Hx.
  apply (proj2 (unique_fpaths_spec w [])) in Hx. now apply elem_of_nil in Hx.
Qed.

(** X8. [mosaic] called without bounds (the default, [None]) never
    returns a raster: every run ends with an exception. When the checks
    pass, the index has records and the first of the deduplicated paths
    (in the order of the interpreter's set) opens, that exception is the
    [TypeError] of unpacking [None] for [clip_box] (the callee as the
    interpreter prints it, then [argument after * must be an iterable,
    not NoneType]), raised after the index was read and that one raster
    opened. *)
Theorem mosaic_needs_bounds (w : World) (dataset : string) (resolution : resolution_arg)
    (version : option string) (log : list event) :
  (∃ e log', mosaic w dataset resolution None version log = (Raise e, log'))
  ∧ ∀ d v r layer index_fpath tiles fpaths fpath rest dem0,
      check_dataset_version w dataset version = Ok (d, v) →
      check_resolution resolution = Ok r →
      index_layer d v = Ok layer →
      _get_index_fpath w d v = Ok index_fpath →
      read_file w index_fpath layer None = Ok tiles →
      tile_fpaths tiles d v r = Ok fpaths →
      unique_fpaths w fpaths = fpath :: rest →
      open_rasterio w fpath = Ok dem0 →
      mosaic w dataset resolution None version log
      = (Raise (TypeError (unpack_none_msg w)),
         (log ++ [ReadIndex index_fpath layer; OpenRaster fpath])%list).
Proof.
  split.
  - destruct (mosaic w dataset resolution None version log) as [[res|e] log'] eqn:H;
      [|eauto].
    exfalso.
    apply mosaic_assembled in H as (fpaths & dem & (dems & Hd & Hm) & _).
    cbn [sanitise_bounds] in Hd.
    destruct Hd as [|fpath dem' fpaths' dems' (dem0 & b & Hb & _) _].
    + destruct Hm as [[Hlen _] | Hm]; [cbn in Hlen; lia | discriminate].
    + discriminate.
  - intros d v r layer index_fpath tiles fpaths fpath rest dem0
      Hdv Hr Hl Hf Hread Hp Hu Hopen.
    rewrite (mosaic_validated w _ _ _ _ d v r layer index_fpath) by assumption.
    cbn [sanitise_bounds]. rewrite Hread, bind_lift_ok. unfold mosaic_tiles.
    destruct tiles as [|row tiles'].
    { cbn in Hp. injection Hp as <-. rewrite unique_fpaths_nil in Hu.
      discriminate Hu. }
    cbn [length Nat.ltb Nat.leb]. rewrite Hp, bind_lift_ok. cbv zeta. rewrite Hu.
    cbn [load_dems]. unfold open_clip_box, open_raster, io_bind, io_emit, io_lift, io_raise.
    rewrite Hopen. now rewrite <- app_assoc.
Qed.

(** The REMA index of the small world, read in full. *)
Lemma mosaic_needs_bounds_witness :
  run (mosaic TestWorld.world "rema" (ResStr "10m") None None)
  = (Raise (TypeError
       "rioxarray.raster_array.RasterArray.clip_box() argument after * must be an iterable, not NoneType"),
     [ReadIndex TestWorld.rema_index_fpath "REMA_Mosaic_Index_v2_2m";
      OpenRaster
        "https://pgc-opendata-dems.s3.us-west-2.amazonaws.com/rema/mosaics/v2.0/10m/41_09/41_09_10m_v2.0_dem.tif"]).
Proof.
  exact (proj2 (mosaic_needs_bounds TestWorld.world "rema" (ResStr "10m") None [])
           "rema" "v2.0" "10m" "REMA_Mosaic_Index_v2_2m" TestWorld.rema_index_fpath
           _ _ _ _ _
           eq_refl eq_refl eq_refl eq_refl eq_refl eq_refl
           ltac:(vm_compute; reflexivity) ltac:(vm_compute; reflexivity)).
Defined.

(** ** Letter case of the dataset *)

(** X9. [mosaic] reads its dataset argument without regard to letter
    case: the call with a dataset and the call with its lower-case form
    are the same computation, so that [REMA] and [ArcticDEM] are
    accepted. *)
Theorem mosaic_dataset_case_insensitive (w : World) (dataset : string)
    (resolution : resolution_arg) (bounds : option bounds_arg) (version : option string) :
  mosaic w dataset resolution bounds version
  = mosaic w (PyStr.lower dataset) resolution bounds version
  ∧ check_dataset_version w "REMA" None = Ok ("rema", "v2.0")
  ∧ check_dataset_version w "ArcticDEM" (Some "v3.0") = Ok ("arcticdem", "v3.0").
Proof.
  split; [|split; reflexivity].
  unfold mosaic, check_dataset_version. now rewrite lower_idemp.
Qed.

(** ** Exceptions of [mosaic] *)






(** ** [mosaic] run forward *)

Lemma load_dems_run (w : World) (fpaths : list string) (b : Bounds)
    (dems : list raster) (log : list event) :
  Forall2 (tile_loaded w (Some b)) fpaths dems →
  load_dems w fpaths (Some b) log = (Ok dems, (log ++ (OpenRaster <$> fpaths))%list).
Proof.
  intros H. revert log.
  induction H as [|fpath dem fpaths dems (dem0 & b' & Hb & Hopen & Hclip) _ IH];
    intros log; cbn [load_dems].
  - unfold io_ret. now rewrite app_nil_r.
  - injection Hb as <-.
    unfold io_bind at 1. unfold open_clip_box, open_raster, io_bind at 1, io_emit, io_lift.
    unfold io_bind at 1. rewrite Hopen, Hclip.
    unfold io_bind at 1. rewrite IH. unfold io_ret. cbn [fmap list_fmap].
    now rewrite <- app_assoc.
Qed.

(** X11. [mosaic] returns whenever the index holds a record for the
    bounds and every deduplicated path opens and clips and, when there
    are several, the tiles merge: the result is the merged raster (or the
    lone tile) with its nodata filtered. [merge_arrays] receives one
    clipped tile per path, in the order in which the interpreter iterates
    over the set of paths, which is also the order of the openings. *)
Theorem mosaic_returns (w : World) (dataset : string) (resolution : resolution_arg)
    (bounds : option bounds_arg) (version : option string)
    (d v r layer index_fpath : string) (b : Bounds) (tiles : list TileRow)
    (fpaths : list string) (dems : list raster) (dem : raster) (log : list event) :
  check_dataset_version w dataset version = Ok (d, v) →
  check_resolution resolution = Ok r →
  index_layer d v = Ok layer →
  _get_index_fpath w d v = Ok index_fpath →
  sanitise_bounds w bounds = Some b →
  read_file w index_fpath layer (Some b) = Ok tiles →
  tiles ≠ [] →
  tile_fpaths tiles d v r = Ok fpaths →
  Forall2 (tile_loaded w (Some b)) (unique_fpaths w fpaths) dems →
  ((1 < length dems)%nat ∧ merge_arrays w dems = Ok dem) ∨ dems = [dem] →
  mosaic w dataset resolution bounds version log
  = (Ok (where_ dem (raster_gt dem NODATA)),
     (log ++ [ReadIndex index_fpath layer]
          ++ (OpenRaster <$> unique_fpaths w fpaths)
          ++ match unique_fpaths w fpaths with
             | [fpath] => [OpenRaster fpath]
             | _ => []
             end)%list).
Proof.
  intros Hdv Hr Hl Hf Hb Hread Hne Hp Hd Hm.
  rewrite (mosaic_validated w _ _ _ _ d v r layer index_fpath) by assumption.
  rewrite Hb, Hread, bind_lift_ok. unfold mosaic_tiles.
  destruct tiles as [|row tiles']; [congruence|].
  cbn [length Nat.ltb Nat.leb]. rewrite Hp, bind_lift_ok. cbv zeta.
  unfold io_bind at 1. rewrite (load_dems_run w _ b dems _ Hd).
  rewrite <- !app_assoc.
  destruct Hd as [|p dem1 ups dems' Hp1 [|p2 dem2 ups2 dems2 Hp2 Hrest]].
  - destruct Hm as [[Hlen _] | Hm]; [cbn in Hlen; lia | discriminate].
  - destruct Hm as [[Hlen _] | Hm]; [cbn in Hlen; lia|]. injection Hm as <-.
    destruct Hp1 as (dem0 & b' & Hb' & Hopen & Hclip). injection Hb' as <-.
    cbn [length Nat.eqb Nat.ltb Nat.leb].
    unfold open_clip_box, open_raster, io_bind, io_emit, io_lift, io_ret.
    rewrite Hopen, Hclip. cbn [fmap list_fmap]. now rewrite <- !app_assoc.
  - destruct Hm as [[_ Hm] | Hm]; [|discriminate].
    cbn [length Nat.eqb Nat.ltb Nat.leb].
    unfold io_bind, io_lift, io_ret. rewrite Hm. now rewrite app_nil_r.
Qed.

(** Two 2 m tiles of the small world, merged. *)
Lemma mosaic_returns_witness :
  ∃ fpaths dems dem,
    Forall2 (tile_loaded TestWorld.world
               (Some {| xmin := 10; ymin := 10; xmax := 60; ymax := 40 |}))
      (unique_fpaths TestWorld.world fpaths) dems
    ∧ merge_arrays TestWorld.world dems = Ok dem
    ∧ run (mosaic TestWorld.world "rema" (ResInt 2) (Some TestWorld.aoi) None)
      = (Ok (where_ dem (raster_gt dem NODATA)),
         ([] ++ [ReadIndex TestWorld.rema_index_fpath "REMA_Mosaic_Index_v2_2m"]
             ++ (OpenRaster <$> unique_fpaths TestWorld.world fpaths)
             ++ match unique_fpaths TestWorld.world fpaths with
                | [fpath] => [OpenRaster fpath]
                | _ => []
                end)%list).
Proof.
  assert (Hd : Forall2 (tile_loaded TestWorld.world
                          (Some {| xmin := 10; ymin := 10; xmax := 60; ymax := 40 |}))
                 (unique_fpaths TestWorld.world
                    ["https://pgc-opendata-dems.s3.us-west-2.amazonaws.com/rema/mosaics/v2.0/2m/40_09/40_09_1_1_2m_v2.0_dem.tif";
                     "https://pgc-opendata-dems.s3.us-west-2.amazonaws.com/rema/mosaics/v2.0/2m/40_09/40_09_2_1_2m_v2.0_dem.tif"])
                 [TestWorld.tile_raster; TestWorld.tile_raster]).
  { replace (unique_fpaths _ _) with
      ["https://pgc-opendata-dems.s3.us-west-2.amazonaws.com/rema/mosaics/v2.0/2m/40_09/40_09_1_1_2m_v2.0_dem.tif";
       "https://pgc-opendata-dems.s3.us-west-2.amazonaws.com/rema/mosaics/v2.0/2m/40_09/40_09_2_1_2m_v2.0_dem.tif"]
      by (vm_compute; reflexivity).
    repeat constructor; eexists _, _; repeat split; reflexivity. }
  assert (Hm : ∃ dem, merge_arrays TestWorld.world
                         [TestWorld.tile_raster; TestWorld.tile_raster] = Ok dem)
    by (eexists; reflexivity).
  destruct Hm as [dem Hm].
  assert (Hlen : (1 < length [TestWorld.tile_raster; TestWorld.tile_raster])%nat)
    by (cbn; lia).
  eexists _, _, dem. split; [exact Hd|]. split; [exact Hm|].
  exact (mosaic_returns TestWorld.world "rema" (ResInt 2) (Some TestWorld.aoi) None
           "rema" "v2.0" "2m" "REMA_Mosaic_Index_v2_2m" TestWorld.rema_index_fpath
           _ _ _ _ _ []
           eq_refl eq_refl eq_refl eq_refl eq_refl eq_refl
           ltac:(discriminate) eq_refl Hd
           (or_introl (conj Hlen Hm))).
Defined.

(** ** Which records share a path *)

Lemma contains_sep_cons (c : ascii) (s : string) :
  PyStr.contains "/" (String c s) = false → c ≠ "/"%char ∧ PyStr.contains "/" s = false.
Proof.
  cbn [PyStr.contains String.prefix].
  destruct (ascii_dec "/" c) as [<-|Hn].
  - rewrite prefix_nil. discriminate.
  - intros H. split; [congruence | exact H].
Qed.

Lemma sep_free_startswith (s : string) :
  PyStr.contains "/" s = false → PyStr.startswith "/" s = false.
Proof.
  destruct s as [|c s]; [reflexivity|]. intros H.
  apply contains_sep_cons in H as [Hc _].
  unfold PyStr.startswith. cbn [String.prefix].
  destruct (ascii_dec "/" c); congruence.
Qed.

Lemma sep_free_endswith (s : string) :
  PyStr.contains "/" s = false → PyStr.endswith "/" s = false.
Proof.
  induction s as [|c s IH]; [reflexivity|]. intros H.
  apply contains_sep_cons in H as [Hc Hs]. cbn [PyStr.endswith].
  destruct (String.eqb_spec "/" (String c s)) as [E|_]; [congruence | auto].
Qed.

Lemma segment_codes_plain (row : TileRow) :
  segment_codes row → Spec.plain_component (supertile row).
Proof.
  intros (Hne & Hs & _). repeat split;
    [exact Hne | now apply sep_free_startswith | now apply sep_free_endswith].
Qed.

(** Two strings without separator, each followed by one, are read back
    from the joined text. *)
Lemma split_at_sep (a b x y : string) :
  PyStr.contains "/" a = false → PyStr.contains "/" b = false →
  a +:+ "/" +:+ x = b +:+ "/" +:+ y → a = b ∧ x = y.
Proof.
  revert b. induction a as [|c a IH]; intros [|c' b] Ha Hb H.
  - change (String "/" x = String "/" y) in H. now injection H as ->.
  - apply contains_sep_cons in Hb as [Hc _].
    change (String "/" x = String c' (b +:+ "/" +:+ y)) in H.
    injection H as H _. congruence.
  - apply contains_sep_cons in Ha as [Hc _].
    change (String c (a +:+ "/" +:+ x) = String "/" y) in H.
    injection H as H _. congruence.
  - apply contains_sep_cons in Ha as [_ Ha]. apply contains_sep_cons in Hb as [_ Hb].
    rewrite !append_cons in H. injection H as -> H.
    destruct (IH b Ha Hb H) as [-> ->]. auto.
Qed.

Lemma length_append (a b : string) :
  String.length (a +:+ b) = (String.length a + String.length b)%nat.
Proof.
  induction a as [|c a IH]; [reflexivity|]. rewrite append_cons. cbn. now rewrite IH.
Qed.

Lemma append_same_length (a b x y : string) :
  String.length a = String.length b → a +:+ x = b +:+ y → a = b.
Proof.
  revert b. induction a as [|c a IH]; intros [|c' b] Hlen H; try discriminate Hlen.
  - reflexivity.
  - rewrite !append_cons in H. injection H as -> H. injection Hlen as Hlen.
    now rewrite (IH b Hlen H).
Qed.

Lemma append_cancel_r (a b s : string) : a +:+ s = b +:+ s → a = b.
Proof.
  intros H. apply (append_same_length a b s s); [|exact H].
  apply (f_equal String.length) in H. rewrite !length_append in H. lia.
Qed.

Lemma Ok_inj {A} (a b : A) : Ok a = Ok b → a = b.
Proof. now intros [= ->]. Qed.

Lemma append_cancel_l (p x y : string) : p +:+ x = p +:+ y → x = y.
Proof. apply String.app_inj. Qed.

(** X12. In [mosaic], two index records with well-formed codes get the
    same path exactly when they name the same raster: the same supertile
    at [10m] and [32m], the same supertile and tile at [2m]. So the
    deduplication merges the records of one supertile at the coarse
    resolutions and merges no two different tiles at [2m]. *)
Theorem same_path_same_source (row1 row2 : TileRow) (d v r : string) :
  supported d v →
  r ∈ VALID_MOSAIC_RES →
  segment_codes row1 →
  segment_codes row2 →
  _aws_link row1 d v r PREFIX = _aws_link row2 d v r PREFIX
  ↔ supertile row1 = supertile row2 ∧ (r = "2m" → tile row1 = tile row2).
Proof.
  intros Hs Hr Hc1 Hc2.
  rewrite (aws_link_in_mosaic row1 d v r Hs Hr (segment_codes_plain _ Hc1)
             (λ _, proj2 (proj2 Hc1))).
  rewrite (aws_link_in_mosaic row2 d v r Hs Hr (segment_codes_plain _ Hc2)
             (λ _, proj2 (proj2 Hc2))).
  destruct Hc1 as (_ & Hf1 & _), Hc2 as (_ & Hf2 & _).
  unfold Spec.mosaic_tile_path, Spec.identifier. split.
  - intros H. apply Ok_inj in H.
    do 10 apply append_cancel_l in H.
    apply split_at_sep in H as [Hst H]; [|assumption..].
    split; [exact Hst|]. intros E.
    rewrite (proj2 (String.eqb_eq r "2m") E) in H.
    exact (append_cancel_r (tile row1) (tile row2) _ H).
  - intros [Hst Ht]. rewrite Hst.
    destruct (String.eqb_spec r "2m") as [E|_]; [now rewrite (Ht E) | reflexivity].
Qed.

(** The two tiles of supertile [40_09] at 10 m. *)
Lemma same_path_same_source_witness :
  _aws_link {| tile := "40_09_1_1"; supertile := "40_09" |} "rema" "v2.0" "10m" PREFIX
  = _aws_link {| tile := "40_09_2_1"; supertile := "40_09" |} "rema" "v2.0" "10m" PREFIX.
Proof.
  assert (Hs : supported "rema" "v2.0") by (right; split; reflexivity).
  assert (Hr : "10m" ∈ VALID_MOSAIC_RES)
    by apply list_elem_of_further, list_elem_of_here.
  assert (Hc1 : segment_codes {| tile := "40_09_1_1"; supertile := "40_09" |})
    by (split; [discriminate | split; reflexivity]).
  assert (Hc2 : segment_codes {| tile := "40_09_2_1"; supertile := "40_09" |})
    by (split; [discriminate | split; reflexivity]).
  apply (proj2 (same_path_same_source _ _ "rema" "v2.0" "10m" Hs Hr Hc1 Hc2)).
  split; [reflexivity | discriminate].
Defined.

(** ** Paths built by [from_id] *)

(** [os.path.join] on plain components writes them with one separator
    between each two. *)
Lemma join_plain (path : string) (comps : list string) (last : string) :
  path ≠ "" → PyStr.endswith "/" path = false →
  Forall Spec.plain_component comps →
  PyStr.startswith "/" last = false →
  OsPath.join path (comps ++ [last])
  = path +:+ fold_right (λ c acc, "/" +:+ c +:+ acc) ("/" +:+ last) comps.
Proof.
  intros Hne He Hc Hl. revert path Hne He.
  induction Hc as [|c comps (Hcn & Hcs & Hce) _ IH]; intros path Hne He.
  - cbn. now apply join_step_plain.
  - cbn [app fold_right]. unfold OsPath.join in *. cbn [fold_left].
    rewrite (join_step_plain path c Hne He Hcs).
    destruct (plain_after_sep path c Hcn Hce) as [Hne' He'].
    rewrite (IH _ Hne' He'). now rewrite !append_assoc.
Qed.

Lemma strip_fname_not_absolute (dem_id ext : string) :
  PyStr.startswith "/" dem_id = false →
  PyStr.startswith "/" ext = false →
  PyStr.startswith "/" (dem_id +:+ ext) = false.
Proof.
  intros Hd He. destruct dem_id as [|c t]; [exact He|].
  now rewrite startswith_sep_append.
Qed.

(** X13. For a bucket that is not empty and does not end with a
    separator, and a dataset, version and geocell that are plain path
    segments, [from_id] loads
    [{bucket}/{dataset}/strips/{version}/2m/{geocell}/{dem_id}_dem.tif]
    with [..._bitmask.tif] beside it when the bitmask is asked for, and
    its preview is the browser prefix followed by
    [/{dataset}/strips/{version}/2m/{geocell}/{dem_id}.json], dataset and
    geocell in lower case. *)
Theorem from_id_paths (w : World) (dataset geocell dem_id : string)
    (bounds : option bounds_arg) (bitmask : bool) (bucket version : string) :
  bucket ≠ "" → PyStr.endswith "/" bucket = false →
  Spec.plain_component (PyStr.lower dataset) →
  Spec.plain_component version →
  Spec.plain_component (PyStr.lower geocell) →
  PyStr.startswith "/" dem_id = false →
  from_id w dataset geocell dem_id bounds bitmask bucket version false
  = (dem <- from_fpath w
       (bucket +:+ "/" +:+ PyStr.lower dataset +:+ "/strips/" +:+ version +:+ "/2m/"
        +:+ PyStr.lower geocell +:+ "/" +:+ dem_id +:+ "_dem.tif")
       bounds
       (if bitmask
        then Some (bucket +:+ "/" +:+ PyStr.lower dataset +:+ "/strips/" +:+ version
                   +:+ "/2m/" +:+ PyStr.lower geocell +:+ "/" +:+ dem_id +:+ "_bitmask.tif")
        else None) ;;
     io_ret (Strip dem))
  ∧ ∀ log,
      from_id w dataset geocell dem_id bounds bitmask bucket version true log
      = (Ok (PreviewPath
               (BROWSER_PREFIX +:+ "/" +:+ PyStr.lower dataset +:+ "/strips/" +:+ version
                +:+ "/2m/" +:+ PyStr.lower geocell +:+ "/" +:+ dem_id +:+ ".json")),
         log).
Proof.
  intros Hb Hbe Hd Hv Hg Hid.
  assert (Hcomps : Forall Spec.plain_component
                     [PyStr.lower dataset; "strips"; version; "2m"; PyStr.lower geocell]).
  { do 5 (constructor 2;
            [first [assumption | split; [discriminate | split; reflexivity]]|]).
    constructor 1. }
  assert (Hjoin : ∀ root ext,
    root ≠ "" → PyStr.endswith "/" root = false → PyStr.startswith "/" ext = false →
    OsPath.join root
      [PyStr.lower dataset; "strips"; version; "2m"; PyStr.lower geocell; dem_id +:+ ext]
    = root +:+ "/" +:+ PyStr.lower dataset +:+ "/strips/" +:+ version +:+ "/2m/"
      +:+ PyStr.lower geocell +:+ "/" +:+ dem_id +:+ ext).
  { intros root ext Hr Hre Hext.
    pose proof (join_plain root
                  [PyStr.lower dataset; "strips"; version; "2m"; PyStr.lower geocell]
                  (dem_id +:+ ext) Hr Hre Hcomps
                  (strip_fname_not_absolute _ _ Hid Hext)) as Hj.
    cbn [app fold_right] in Hj. rewrite Hj. reflexivity. }
  split.
  - unfold from_id. rewrite !Hjoin by (assumption || reflexivity). reflexivity.
  - intros log. unfold from_id, io_ret.
    rewrite Hjoin by (discriminate || reflexivity). reflexivity.
Qed.

(** The strip of the docstring. *)
Lemma from_id_paths_witness :
  from_id TestWorld.world "ArcticDEM" "N70W051" "SETSM_s2s041_WV01_20200709_2m_lsf_seg2"
    None true PREFIX "s2s041" false
  = (dem <- from_fpath TestWorld.world
       "https://pgc-opendata-dems.s3.us-west-2.amazonaws.com/arcticdem/strips/s2s041/2m/n70w051/SETSM_s2s041_WV01_20200709_2m_lsf_seg2_dem.tif"
       None
       (Some "https://pgc-opendata-dems.s3.us-west-2.amazonaws.com/arcticdem/strips/s2s041/2m/n70w051/SETSM_s2s041_WV01_20200709_2m_lsf_seg2_bitmask.tif") ;;
     io_ret (Strip dem)).
Proof.
  assert (Hb : PREFIX ≠ "") by discriminate.
  assert (Hd : Spec.plain_component (PyStr.lower "ArcticDEM"))
    by (split; [discriminate | split; reflexivity]).
  assert (Hv : Spec.plain_component "s2s041")
    by (split; [discriminate | split; reflexivity]).
  assert (Hg : Spec.plain_component (PyStr.lower "N70W051"))
    by (split; [discriminate | split; reflexivity]).
  exact (proj1 (from_id_paths TestWorld.world "ArcticDEM" "N70W051"
                  "SETSM_s2s041_WV01_20200709_2m_lsf_seg2" None true PREFIX "s2s041"
                  Hb eq_refl Hd Hv Hg eq_refl)).
Defined.

(** X14. A separator at the end of the bucket changes nothing: for a
    bucket that is not empty and does not end with a separator,
    [from_id] with [bucket/] is the same computation as with [bucket]
    (no doubled separator in the paths). *)
Theorem from_id_bucket_trailing_sep (w : World) (dataset geocell dem_id : string)
    (bounds : option bounds_arg) (bitmask : bool) (bucket version : string)
    (preview : bool) :
  bucket ≠ "" → PyStr.endswith "/" bucket = false →
  PyStr.startswith "/" (PyStr.lower dataset) = false →
  from_id w dataset geocell dem_id bounds bitmask (bucket +:+ "/") version preview
  = from_id w dataset geocell dem_id bounds bitmask bucket version preview.
Proof.
  intros Hb Hbe Hd.
  assert (Hstep : OsPath.join_step (bucket +:+ "/") (PyStr.lower dataset)
                  = OsPath.join_step bucket (PyStr.lower dataset)).
  { rewrite (join_step_plain bucket _ Hb Hbe Hd).
    unfold OsPath.join_step, OsPath.sep. rewrite Hd.
    assert (PyStr.endswith "/" (bucket +:+ "/") = true) as ->
      by (rewrite endswith_sep_append by discriminate; reflexivity).
    rewrite orb_true_r. apply append_assoc. }
  unfold from_id, OsPath.join. cbn [fold_left]. now rewrite Hstep.
Qed.

Lemma from_id_bucket_trailing_sep_witness :
  from_id TestWorld.world "rema" "s70w051" "id" None true "/data/pgc/" "s2s041" false
  = from_id TestWorld.world "rema" "s70w051" "id" None true "/data/pgc" "s2s041" false.
Proof.
  assert (Hb : "/data/pgc" ≠ "") by discriminate.
  exact (from_id_bucket_trailing_sep TestWorld.world "rema" "s70w051" "id" None true
           "/data/pgc" "s2s041" false Hb eq_refl eq_refl).
Defined.

(** X15. A strip ID that starts with a separator is taken as an absolute
    path: [os.path.join] drops the bucket, dataset, version and geocell,
    and [from_id] loads [{dem_id}_dem.tif] (and [{dem_id}_bitmask.tif])
    as it stands. *)
Theorem from_id_absolute_dem_id (w : World) (dataset geocell dem_id : string)
    (bounds : option bounds_arg) (bitmask : bool) (bucket version : string) :
  PyStr.startswith "/" dem_id = true →
  from_id w dataset geocell dem_id bounds bitmask bucket version false
  = (dem <- from_fpath w (dem_id +:+ "_dem.tif") bounds
              (if bitmask then Some (dem_id +:+ "_bitmask.tif") else None) ;;
     io_ret (Strip dem)).
Proof.
  intros H.
  assert (Hne : dem_id ≠ "") by (intros ->; discriminate H).
  assert (Hlast : ∀ path ext, OsPath.join_step path (dem_id +:+ ext) = dem_id +:+ ext).
  { intros path ext. unfold OsPath.join_step, OsPath.sep.
    now rewrite (startswith_sep_append dem_id ext Hne), H. }
  unfold from_id, OsPath.join. cbn [fold_left]. now rewrite !Hlast.
Qed.

Lemma from_id_absolute_dem_id_witness :
  from_id TestWorld.world "rema" "s70w051" "/tmp/strip" None true PREFIX "s2s041" false
  = (dem <- from_fpath TestWorld.world "/tmp/strip_dem.tif" None
              (Some "/tmp/strip_bitmask.tif") ;;
     io_ret (Strip dem)).
Proof.
  exact (from_id_absolute_dem_id TestWorld.world "rema" "s70w051" "/tmp/strip" None true
           PREFIX "s2s041" eq_refl).
Defined.

(** ** Validation comes first *)

(** X16. When the dataset or the version is turned down, or they pass
    and the resolution is turned down, [mosaic] raises that validation
    error with nothing read or opened; a bad dataset or version is
    reported whatever the resolution is. *)
Theorem validation_errors_before_io (w : World) (dataset : string)
    (resolution : resolution_arg) (bounds : option bounds_arg)
    (version : option string) (e : exn) (log : list event) :
  check_dataset_version w dataset version = Raise e
  ∨ ((∃ dv, check_dataset_version w dataset version = Ok dv)
     ∧ check_resolution resolution = Raise e) →
  mosaic w dataset resolution bounds version log = (Raise e, log)
  ∧ validation_error w e.
Proof.
  intros H. split.
  - unfold mosaic. destruct H as [H | [[dv H] Hr]]; rewrite H.
    + reflexivity.
    + rewrite bind_lift_ok, Hr. reflexivity.
  - destruct H as [H | [_ Hr]].
    + exact (check_dataset_version_raises _ _ _ _ H).
    + exact (check_resolution_raises w _ _ Hr).
Qed.

(** A bad version together with a bad resolution: the version is
    reported. *)
Lemma validation_errors_before_io_witness :
  run (mosaic TestWorld.world "rema" (ResInt 5) (Some TestWorld.aoi) (Some "v4.1"))
  = (Raise (ValueError "Version of rema must be one of ['v2.0']. Currently `v4.1`"), [])
  ∧ validation_error TestWorld.world
      (ValueError "Version of rema must be one of ['v2.0']. Currently `v4.1`").
Proof.
  exact (validation_errors_before_io TestWorld.world "rema" (ResInt 5)
           (Some TestWorld.aoi) (Some "v4.1")
           (ValueError "Version of rema must be one of ['v2.0']. Currently `v4.1`") []
           (or_introl eq_refl)).
Defined.
